(** * Slack socket-mode trigger nodes: a shallow embedding

    The repository holds two n8n trigger nodes,
    [SlackSocketDashTrigger.node.ts] and [SlackSocketTriggerV2Trigger.node.ts].
    Each one has a single behavioural unit, the [trigger] method, which talks
    to three outside parties: the n8n host (the [this] object), the Bolt
    [App] it creates, and the [ack] function carried by each inbound event.

    The embedding keeps the code's shape.  Every call to an outside party is
    appended to a trace; what the outside party answers (a value, or a
    thrown error) is read from an environment.  [async]/[await] code is
    sequenced, [try]/[catch] and [throw] are operations of a small
    state-and-error monad.

    What may throw: the credential lookup, the construction of the [App],
    [app.start], [app.stop] and an event's [ack].  The host's logger, its
    [emit], [getNodeParameter] and [getMode], and [app.command] are taken
    to return normally. *)

From stdpp Require Import base strings list gmap.
From Stdlib Require Import Ascii.

Local Open Scope string_scope.
Local Open Scope list_scope.
Set Warnings "-register-all,-notation-for-abbreviation".

(** ** Values *)

(** The TypeScript type [any], as far as the nodes look at it: they only
    move such values around. *)
Inductive any : Type :=
| JUndefined
| JNull
| JBool (b : bool)
| JNumber (z : Z)
| JString (s : string)
| JArray (items : list any)
| JObject (props : list (string * any)).

(** A thrown value. *)
Record Error : Type := mkError { message : string }.

Inductive Result (A : Type) : Type :=
| Ok (a : A)
| Throw (e : Error).
Arguments Ok {A} a.
Arguments Throw {A} e.

(** [interface SlackCredential] *)
Record SlackCredential : Type := {
  botToken : string;
  appToken : string;
  signingSecret : string
}.

(** The options object handed to [new App(...)]. *)
Module AppOptions.
Record t : Type := make {
  token : string;
  signingSecret : string;
  appToken : string;
  socketMode : bool
}.
End AppOptions.

(** [INodeExecutionData], of which the nodes only ever see what the host's
    [returnJsonArray] hands back. *)
Record INodeExecutionData : Type := { json : any }.

(** ** Listener patterns

    [app.command] takes a [string | RegExp].  The regular expressions are
    kept as syntax trees; [regexp_test] is [RegExp.prototype.test] for them
    (an unanchored search), computed with derivatives. *)
Inductive RegExp : Type :=
| ReFail
| ReEmpty
| ReChar (c : ascii)
| ReDot
| ReSeq (r1 r2 : RegExp)
| ReAlt (r1 r2 : RegExp)
| ReStar (r : RegExp).

Fixpoint nullable (r : RegExp) : bool :=
  match r with
  | ReFail => false
  | ReEmpty => true
  | ReChar _ => false
  | ReDot => false
  | ReSeq r1 r2 => nullable r1 && nullable r2
  | ReAlt r1 r2 => nullable r1 || nullable r2
  | ReStar _ => true
  end.

(** [.] matches every character but a line terminator. *)
Definition line_terminator (c : ascii) : bool :=
  Ascii.eqb c "010"%char || Ascii.eqb c "013"%char.

Fixpoint deriv (c : ascii) (r : RegExp) : RegExp :=
  match r with
  | ReFail => ReFail
  | ReEmpty => ReFail
  | ReChar d => if Ascii.eqb c d then ReEmpty else ReFail
  | ReDot => if line_terminator c then ReFail else ReEmpty
  | ReSeq r1 r2 =>
      if nullable r1
      then ReAlt (ReSeq (deriv c r1) r2) (deriv c r2)
      else ReSeq (deriv c r1) r2
  | ReAlt r1 r2 => ReAlt (deriv c r1) (deriv c r2)
  | ReStar r1 => ReSeq (deriv c r1) (ReStar r1)
  end.

(** Does [r] match some prefix of [s]? *)
Fixpoint match_prefix (r : RegExp) (s : string) : bool :=
  nullable r ||
  match s with
  | EmptyString => false
  | String c s' => match_prefix (deriv c r) s'
  end.

Fixpoint regexp_test (r : RegExp) (s : string) : bool :=
  match_prefix r s ||
  match s with
  | EmptyString => false
  | String _ s' => regexp_test r s'
  end.

Inductive Pattern : Type :=
| PString (name : string)
| PRegExp (r : RegExp).

(** The literal [/.*/]. *)
Definition catch_all : RegExp := ReStar ReDot.

(** How Bolt decides whether a listener registered under [p] receives the
    command named [candidate]: a string must be equal, a [RegExp] must
    test true. *)
Definition matches_pattern (p : Pattern) (candidate : string) : bool :=
  match p with
  | PString name => String.eqb name candidate
  | PRegExp r => regexp_test r candidate
  end.

(** ** Calls to the outside, and the trace of them *)

Inductive Call : Type :=
| GetCredentials (name : string)
| NewApp (options : AppOptions.t)
| GetNodeParameter (name fallback : string)
| GetMode
| AppCommand (pattern : Pattern)
| AppEvent (eventName : string)
| AppAction (pattern : Pattern)
| AppStart
| AppStop
| Ack
| Emit (data : list (list INodeExecutionData))
| LoggerInfo (msg : string)
| LoggerError (msg : string) (error : Error).

Notation Trace := (list Call).

Definition is_start (c : Call) : bool :=
  match c with AppStart => true | _ => false end.

Definition is_stop (c : Call) : bool :=
  match c with AppStop => true | _ => false end.

Definition is_ack (c : Call) : bool :=
  match c with Ack => true | _ => false end.

Definition is_command (c : Call) : bool :=
  match c with AppCommand _ => true | _ => false end.

Fixpoint count (f : Call -> bool) (t : Trace) : nat :=
  match t with
  | [] => 0
  | c :: t' => (if f c then 1 else 0) + count f t'
  end.

(** ** The environment

    What the host and the SDK answer.  [start_outcome n] is what the
    [n]-th call of [app.start] does ([None]: it resolves), and likewise
    for [app.stop]. *)
Record Env : Type := {
  credentials_store : string -> Result SlackCredential;
  app_init : AppOptions.t -> option Error;
  node_parameters : gmap string string;
  mode : string;
  start_outcome : nat -> option Error;
  stop_outcome : nat -> option Error;
  returnJsonArray : any -> list INodeExecutionData
}.

(** ** The monad *)

Definition Eff (S A : Type) : Type := Env -> S -> Result A * S.

#[global] Instance Eff_ret {S} : MRet (Eff S) :=
  λ A a _ s, (Ok a, s).

#[global] Instance Eff_bind {S} : MBind (Eff S) :=
  λ A B k m env s,
    match m env s with
    | (Ok a, s') => k a env s'
    | (Throw e, s') => (Throw e, s')
    end.

Definition throw {S A} (e : Error) : Eff S A :=
  λ _ s, (Throw e, s).

(** [try { body } catch (error) { handler }] *)
Definition try_catch {S A} (body : Eff S A) (handler : Error -> Eff S A)
  : Eff S A :=
  λ env s,
    match body env s with
    | (Ok a, s') => (Ok a, s')
    | (Throw e, s') => handler e env s'
    end.

(** A call that resolves or rejects. *)
Definition settle (o : option Error) : Result unit :=
  match o with
  | None => Ok tt
  | Some e => Throw e
  end.

(** Computations that only touch the outside world: event handlers and the
    two lifecycle closures. *)
Notation T := (Eff Trace).

(** The arguments Bolt passes to a listener, at the type [process] gives
    them.  [ack] is what calling the event's acknowledgement function
    does; an absent optional field is [None]. *)
Record HandlerArgs : Type := {
  ack : option Error;
  command : option any;
  body : option any;
  context : option any;
  payload : option any
}.

Inductive ListenerKind : Type := OnCommand | OnEvent | OnAction.

Record Listener : Type := {
  kind : ListenerKind;
  pattern : Pattern;
  callback : HandlerArgs -> T unit
}.

(** The state [trigger] works on: the trace, and the listeners registered
    on the [App] it created. *)
Record World : Type := {
  trace : Trace;
  listeners : list Listener
}.

Notation M := (Eff World).

Definition lift {A} (m : T A) : M A :=
  λ env w,
    let (r, t') := m env (trace w) in
    (r, {| trace := t'; listeners := listeners w |}).

Definition log_call (c : Call) (w : World) : World :=
  {| trace := trace w ++ [c]; listeners := listeners w |}.

(** *** Host operations *)

Definition getCredentials (name : string) : M SlackCredential :=
  λ env w, (credentials_store env name, log_call (GetCredentials name) w).

Definition getNodeParameter (name fallback : string) : M string :=
  λ env w,
    (Ok (default fallback (node_parameters env !! name)),
     log_call (GetNodeParameter name fallback) w).

Definition getMode : M string :=
  λ env w, (Ok (mode env), log_call GetMode w).

Definition emit (data : list (list INodeExecutionData)) : T unit :=
  λ _ t, (Ok tt, t ++ [Emit data]).

Definition helpers_returnJsonArray (data : any) : T (list INodeExecutionData) :=
  λ env t, (Ok (returnJsonArray env data), t).

Definition logger_info (msg : string) : T unit :=
  λ _ t, (Ok tt, t ++ [LoggerInfo msg]).

Definition logger_error (msg : string) (error : Error) : T unit :=
  λ _ t, (Ok tt, t ++ [LoggerError msg error]).

(** *** SDK operations *)

Definition new_App (options : AppOptions.t) : M unit :=
  λ env w,
    (settle (app_init env options),
     {| trace := trace w ++ [NewApp options]; listeners := [] |}).

Definition app_command (p : Pattern) (listener : HandlerArgs -> T unit)
  : M unit :=
  λ _ w,
    (Ok tt,
     {| trace := trace w ++ [AppCommand p];
        listeners := listeners w ++
          [{| kind := OnCommand; pattern := p; callback := listener |}] |}).

Definition app_start : T unit :=
  λ env t, (settle (start_outcome env (count is_start t)), t ++ [AppStart]).

Definition app_stop : T unit :=
  λ env t, (settle (stop_outcome env (count is_stop t)), t ++ [AppStop]).

(** [await ack()] *)
Definition call_ack (ack : option Error) : T unit :=
  λ _ t, (settle ack, t ++ [Ack]).

(** *** JavaScript bits *)

(** Truthiness of a string: every string but [''] is truthy. *)
Definition truthy (s : string) : bool := negb (String.eqb s "").

(** A destructured property that is absent is [undefined]. *)
Definition prop (o : option any) : any := default JUndefined o.

(** [ITriggerResponse] *)
Module ITriggerResponse.
Record t : Type := make {
  closeFunction : T unit;
  manualTriggerFunction : T unit
}.
End ITriggerResponse.

(** ** SlackSocketDashTrigger.node.ts *)
Module Dash.

Definition process (params : HandlerArgs) : T unit :=
  let '{| ack := ack; command := command; body := body;
          context := context; payload := payload |} := params in
  call_ack ack;;
  items ← helpers_returnJsonArray
    (JObject [("command", prop command); ("body", prop body);
              ("context", prop context); ("payload", prop payload)]);
  emit [items].

Definition handler (args : HandlerArgs) : T unit :=
  process args.

Definition manualTriggerFunction : T unit :=
  try_catch
    (app_start;;
     logger_info "Started Slack Socket app in test mode")
    (λ error,
       logger_error "Error starting Slack Socket app in test mode:" error;;
       throw error);;
  mret tt.

Definition closeFunction : T unit :=
  try_catch
    (app_stop;;
     logger_info "Stopped Slack Socket app")
    (λ error, logger_error "Error stopping Slack Socket app:" error).

Definition trigger : M ITriggerResponse.t :=
  credentials ← getCredentials "slackSocketCredentialsApi";
  new_App {| AppOptions.token := botToken credentials;
             AppOptions.signingSecret := signingSecret credentials;
             AppOptions.appToken := appToken credentials;
             AppOptions.socketMode := true |};;
  slashCommandName ← getNodeParameter "slashCommandName" "";
  (if truthy slashCommandName
   then app_command (PString slashCommandName) handler
   else app_command (PRegExp catch_all) handler);;
  mode ← getMode;
  (if String.eqb mode "trigger"
   then lift
     (try_catch
        (app_start;;
         logger_info "Started Slack Socket app in trigger mode")
        (λ error,
           logger_error "Error starting Slack Socket app in trigger mode:" error;;
           throw error))
   else mret tt);;
  mret {| ITriggerResponse.closeFunction := closeFunction;
          ITriggerResponse.manualTriggerFunction := manualTriggerFunction |}.

End Dash.

(** ** SlackSocketTriggerV2Trigger.node.ts *)
Module V2.

Definition process (params : HandlerArgs) : T unit :=
  let '{| ack := ack; command := command; body := body;
          context := context; payload := payload |} := params in
  call_ack ack;;
  items ← helpers_returnJsonArray
    (JObject [("command", prop command); ("body", prop body);
              ("context", prop context); ("payload", prop payload)]);
  emit [items].

Definition handler (args : HandlerArgs) : T unit :=
  process args.

Definition setupEventListeners : M unit :=
  slashCommandName ← getNodeParameter "slashCommandName" "";
  if truthy slashCommandName
  then app_command (PString slashCommandName) handler
  else app_command (PRegExp catch_all) handler.

Definition manualTriggerFunction : T unit :=
  try_catch
    (app_start;;
     logger_info "Started Slack Socket app in test mode")
    (λ error,
       logger_error "Error starting Slack Socket app in test mode:" error);;
  mret tt.

Definition closeFunction : T unit :=
  try_catch
    (app_stop;;
     logger_info "Stopped Slack Socket app")
    (λ error, logger_error "Error stopping Slack Socket app:" error).

Definition trigger : M ITriggerResponse.t :=
  credentials ← getCredentials "slackSocketCredentialsApi";
  new_App {| AppOptions.token := botToken credentials;
             AppOptions.signingSecret := signingSecret credentials;
             AppOptions.appToken := appToken credentials;
             AppOptions.socketMode := true |};;
  setupEventListeners;;
  mode ← getMode;
  (if String.eqb mode "trigger"
   then lift
     (try_catch
        (app_start;;
         logger_info "Started Slack Socket app in trigger mode")
        (λ error,
           logger_error "Error starting Slack Socket app in trigger mode:" error))
   else mret tt);;
  mret {| ITriggerResponse.closeFunction := closeFunction;
          ITriggerResponse.manualTriggerFunction := manualTriggerFunction |}.

End V2.

(** ** The host and the SDK driving a node

    After [trigger] has returned, the host may call the two lifecycle
    closures and the SDK may deliver slash commands to the listeners that
    were registered. *)

Definition receives (l : Listener) (name : string) : bool :=
  match kind l with
  | OnCommand => matches_pattern (pattern l) name
  | _ => false
  end.

(** Bolt runs every listener that matches and reports the first failure. *)
Fixpoint dispatch (ls : list Listener) (name : string) (args : HandlerArgs)
  : T unit :=
  λ env t,
    match ls with
    | [] => (Ok tt, t)
    | l :: ls' =>
        let (r, t1) :=
          if receives l name then callback l args env t else (Ok tt, t) in
        let (r', t2) := dispatch ls' name args env t1 in
        (match r with Throw e => Throw e | Ok _ => r' end, t2)
    end.

Inductive HostAction : Type :=
| RunManual
| RunClose
| Inbound (name : string) (args : HandlerArgs).

Definition run_action (resp : ITriggerResponse.t) (ls : list Listener)
    (a : HostAction) : T unit :=
  match a with
  | RunManual => ITriggerResponse.manualTriggerFunction resp
  | RunClose => ITriggerResponse.closeFunction resp
  | Inbound name args => dispatch ls name args
  end.

(** Runs the actions one after the other; an action that throws does not
    stop the next one.  Returns what each action did. *)
Fixpoint run_actions (resp : ITriggerResponse.t) (ls : list Listener)
    (actions : list HostAction) (env : Env) (t : Trace)
  : list (Result unit) * Trace :=
  match actions with
  | [] => ([], t)
  | a :: actions' =>
      let (r, t1) := run_action resp ls a env t in
      let (rs, t2) := run_actions resp ls actions' env t1 in
      (r :: rs, t2)
  end.

Definition initial : World := {| trace := []; listeners := [] |}.

(** What an observer sees of a node's life: whether [trigger] returned,
    what each later action did, and every call that was made. *)
Definition session (trigger : M ITriggerResponse.t)
    (actions : list HostAction) (env : Env)
  : Result unit * list (Result unit) * Trace :=
  match trigger env initial with
  | (Throw e, w) => (Throw e, [], trace w)
  | (Ok resp, w) =>
      let (rs, t) := run_actions resp (listeners w) actions env (trace w) in
      (Ok tt, rs, t)
  end.

(** ** Vocabulary for the statements *)

(** The options [trigger] builds from a credential. *)
Definition options_of (credentials : SlackCredential) : AppOptions.t :=
  {| AppOptions.token := botToken credentials;
     AppOptions.signingSecret := signingSecret credentials;
     AppOptions.appToken := appToken credentials;
     AppOptions.socketMode := true |}.

(** The value the host returns for [getNodeParameter('slashCommandName', '')]. *)
Definition filter_of (env : Env) : string :=
  default "" (node_parameters env !! "slashCommandName").

(** The calls of a setup that got as far as reading the mode. *)
Definition setup_calls (credentials : SlackCredential) (p : Pattern) : Trace :=
  [GetCredentials "slackSocketCredentialsApi";
   NewApp (options_of credentials);
   GetNodeParameter "slashCommandName" "";
   AppCommand p;
   GetMode].

Definition command_listener (p : Pattern) (h : HandlerArgs -> T unit)
  : Listener :=
  {| kind := OnCommand; pattern := p; callback := h |}.

(** The object literal [{ command, body, context, payload }]. *)
Definition forwarded (args : HandlerArgs) : any :=
  JObject [("command", prop (command args)); ("body", prop (body args));
           ("context", prop (context args)); ("payload", prop (payload args))].

(** No [app.start] comes before the first [app.command]. *)
Definition registered_before_start (t : Trace) : Prop :=
  ∀ pre post, t = pre ++ AppStart :: post → ∃ p, In (AppCommand p) pre.

(** The same, as a check that runs. *)
Fixpoint guarded (seen : bool) (t : Trace) : bool :=
  match t with
  | [] => true
  | AppStart :: t' => seen && guarded seen t'
  | AppCommand _ :: t' => guarded true t'
  | _ :: t' => guarded seen t'
  end.

(** What a handler invocation adds to the trace: one acknowledgement, and
    an emission only after it, once it has resolved. *)
Definition acks_once_before_emit (args : HandlerArgs) (calls : Trace) : Prop :=
  count is_ack calls = 1 ∧
  ∀ pre data post, calls = pre ++ Emit data :: post →
    In Ack pre ∧ ack args = None.

(** The pattern [trigger] registers: the filter itself when it is truthy,
    the catch-all otherwise. *)
Definition configured_pattern (env : Env) : Pattern :=
  if truthy (filter_of env) then PString (filter_of env) else PRegExp catch_all.

(** The responses the two [trigger] methods return. *)
Definition Dash_response : ITriggerResponse.t :=
  {| ITriggerResponse.closeFunction := Dash.closeFunction;
     ITriggerResponse.manualTriggerFunction := Dash.manualTriggerFunction |}.

Definition V2_response : ITriggerResponse.t :=
  {| ITriggerResponse.closeFunction := V2.closeFunction;
     ITriggerResponse.manualTriggerFunction := V2.manualTriggerFunction |}.

Definition credential_call : Call :=
  GetCredentials "slackSocketCredentialsApi".

(** The same host with the [triggerType] parameter set to [ty]. *)
Definition with_trigger_type (env : Env) (ty : string) : Env :=
  {| credentials_store := credentials_store env;
     app_init := app_init env;
     node_parameters := <["triggerType" := ty]> (node_parameters env);
     mode := mode env;
     start_outcome := start_outcome env;
     stop_outcome := stop_outcome env;
     returnJsonArray := returnJsonArray env |}.

(** The listener registrations among the calls of a trace. *)
Definition is_registration (c : Call) : bool :=
  match c with
  | AppCommand _ | AppEvent _ | AppAction _ => true
  | _ => false
  end.

Definition registrations (t : Trace) : Trace :=
  List.filter is_registration t.

(** ** Sample inputs *)

Definition sample_credential : SlackCredential :=
  {| botToken := "xoxb-1"; appToken := "xapp-1"; signingSecret := "s3cret" |}.

Definition wrap_json (data : any) : list INodeExecutionData :=
  [{| json := data |}].

Definition connect_failed : Error := mkError "connect failed".

(** A host in the given mode with the given node parameters, and an SDK
    whose [start] and [stop] do as told. *)
Definition sample_env (m : string) (params : gmap string string)
    (starts stops : nat -> option Error) : Env :=
  {| credentials_store := λ _, Ok sample_credential;
     app_init := λ _, None;
     node_parameters := params;
     mode := m;
     start_outcome := starts;
     stop_outcome := stops;
     returnJsonArray := wrap_json |}.

Definition always_ok : nat -> option Error := λ _, None.
Definition always_fails : nat -> option Error := λ _, Some connect_failed.

Definition sample_args : HandlerArgs :=
  {| ack := None;
     command := Some (JObject [("command", JString "/deploy")]);
     body := Some (JObject [("text", JString "now")]);
     context := None;
     payload := Some (JString "p") |}.

(** The same event with an acknowledgement that rejects. *)
Definition rejected_args : HandlerArgs :=
  {| ack := Some (mkError "socket closed");
     command := command sample_args;
     body := body sample_args;
     context := context sample_args;
     payload := payload sample_args |}.

Definition deploy_params : gmap string string :=
  {[ "slashCommandName" := "/deploy" ]}.

Definition events_params : gmap string string :=
  {[ "triggerType" := "events" ]}.

Definition sample_actions : list HostAction :=
  [RunManual; Inbound "/deploy" sample_args; Inbound "/other" sample_args;
   Inbound "/deploy" rejected_args; RunClose].

(** ** The node descriptions

    The [description] member of each class: the declarative part the host
    reads to show the node and to know which credential and parameters it
    has. *)

(** The one connection type the nodes name. *)
Inductive NodeConnectionType : Type := Main.

Module INodePropertyOptions.
Record t : Type := make {
  name : string;
  value : string;
  description : string
}.
End INodePropertyOptions.

(** [displayOptions.show] is kept as a list of pairs of a property name and
    the values under which the field is shown; a property without
    [displayOptions] has the empty list, one without [options] or
    [placeholder] has [[]] and [None]. *)
Module INodeProperties.
Record t : Type := make {
  displayName : string;
  name : string;
  type : string;
  options : list INodePropertyOptions.t;
  default : string;
  placeholder : option string;
  description : string;
  displayOptions : list (string * list string)
}.
End INodeProperties.

Module INodeCredentialDescription.
Record t : Type := make {
  name : string;
  required : bool
}.
End INodeCredentialDescription.

(** The [defaults] object, which has the one member [name]. *)
Module NodeDefaults.
Record t : Type := make { name : string }.
End NodeDefaults.

Module INodeTypeDescription.
Record t : Type := make {
  displayName : string;
  name : string;
  group : list string;
  version : nat;
  description : string;
  defaults : NodeDefaults.t;
  icon : string;
  inputs : list NodeConnectionType;
  outputs : list NodeConnectionType;
  credentials : list INodeCredentialDescription.t;
  properties : list INodeProperties.t
}.
End INodeTypeDescription.

(** The two [properties] entries are written out once per file, as the
    source has them. *)
Definition Dash_description : INodeTypeDescription.t :=
  {| INodeTypeDescription.displayName := "Slack Dash Trigger";
     INodeTypeDescription.name := "slackSocketDashTrigger";
     INodeTypeDescription.group := ["trigger"];
     INodeTypeDescription.version := 1;
     INodeTypeDescription.description :=
       "Triggers workflow when a dash bot event gets triggered";
     INodeTypeDescription.defaults :=
       {| NodeDefaults.name := "Slack Dash Trigger" |};
     INodeTypeDescription.icon := "file:./assets/slack-dash.svg";
     INodeTypeDescription.inputs := [];
     INodeTypeDescription.outputs := [Main];
     INodeTypeDescription.credentials :=
       [{| INodeCredentialDescription.name := "slackSocketCredentialsApi";
           INodeCredentialDescription.required := true |}];
     INodeTypeDescription.properties :=
       [{| INodeProperties.displayName := "Trigger Type";
           INodeProperties.name := "triggerType";
           INodeProperties.type := "options";
           INodeProperties.options :=
             [{| INodePropertyOptions.name := "Slash Command";
                 INodePropertyOptions.value := "slashCommand";
                 INodePropertyOptions.description :=
                   "Trigger when a specific Slack slash command is invoked (e.g., /mycommand)" |};
              {| INodePropertyOptions.name := "Events";
                 INodePropertyOptions.value := "events";
                 INodePropertyOptions.description :=
                   "Trigger on various Slack events (e.g., app_mention, message, user_change)" |};
              {| INodePropertyOptions.name := "Interactive Component (Actions)";
                 INodePropertyOptions.value := "interactiveComponent";
                 INodePropertyOptions.description :=
                   "Trigger on user interactions with buttons, select menus, etc. (block_actions)." |}];
           INodeProperties.default := "slashCommand";
           INodeProperties.placeholder := None;
           INodeProperties.description :=
             "Select whether to trigger on Slack events, slash commands, or interactive components";
           INodeProperties.displayOptions := [] |};
        {| INodeProperties.displayName := "Slash Command";
           INodeProperties.name := "slashCommandName";
           INodeProperties.type := "string";
           INodeProperties.options := [];
           INodeProperties.default := "";
           INodeProperties.placeholder := Some "/yourcommand";
           INodeProperties.description :=
             "The full slash command to listen for (e.g., /mycommand). Leave empty to listen for any command.";
           INodeProperties.displayOptions :=
             [("triggerType", ["slashCommand"])] |}] |}.

Definition V2_description : INodeTypeDescription.t :=
  {| INodeTypeDescription.displayName :=
       "Slack Socket Mode Trigger / V2 Trigger";
     INodeTypeDescription.name := "slackSocketTriggerV2Trigger";
     INodeTypeDescription.group := ["trigger"];
     INodeTypeDescription.version := 1;
     INodeTypeDescription.description :=
       "Triggers workflow when a Slack message matches a regex pattern via Socket Mode";
     INodeTypeDescription.defaults :=
       {| NodeDefaults.name := "Slack Socket Mode Trigger" |};
     INodeTypeDescription.icon := "file:./assets/slack-socket-mode.svg";
     INodeTypeDescription.inputs := [];
     INodeTypeDescription.outputs := [Main];
     INodeTypeDescription.credentials :=
       [{| INodeCredentialDescription.name := "slackSocketCredentialsApi";
           INodeCredentialDescription.required := true |}];
     INodeTypeDescription.properties :=
       [{| INodeProperties.displayName := "Trigger Type";
           INodeProperties.name := "triggerType";
           INodeProperties.type := "options";
           INodeProperties.options :=
             [{| INodePropertyOptions.name := "Slash Command";
                 INodePropertyOptions.value := "slashCommand";
                 INodePropertyOptions.description :=
                   "Trigger when a specific Slack slash command is invoked (e.g., /mycommand)" |};
              {| INodePropertyOptions.name := "Events";
                 INodePropertyOptions.value := "events";
                 INodePropertyOptions.description :=
                   "Trigger on various Slack events (e.g., app_mention, message, user_change)" |};
              {| INodePropertyOptions.name := "Interactive Component (Actions)";
                 INodePropertyOptions.value := "interactiveComponent";
                 INodePropertyOptions.description :=
                   "Trigger on user interactions with buttons, select menus, etc. (block_actions)." |}];
           INodeProperties.default := "slashCommand";
           INodeProperties.placeholder := None;
           INodeProperties.description :=
             "Select whether to trigger on Slack events, slash commands, or interactive components";
           INodeProperties.displayOptions := [] |};
        {| INodeProperties.displayName := "Slash Command";
           INodeProperties.name := "slashCommandName";
           INodeProperties.type := "string";
           INodeProperties.options := [];
           INodeProperties.default := "";
           INodeProperties.placeholder := Some "/yourcommand";
           INodeProperties.description :=
             "The full slash command to listen for (e.g., /mycommand). Leave empty to listen for any command.";
           INodeProperties.displayOptions :=
             [("triggerType", ["slashCommand"])] |}] |}.

(** ** Vocabulary for the further properties *)

(** The node parameters when every declared property has its declared
    default. *)
Definition default_parameters (d : INodeTypeDescription.t)
  : gmap string string :=
  list_to_map
    (map (λ p, (INodeProperties.name p, INodeProperties.default p))
       (INodeTypeDescription.properties d)).

(** Is [name] a required credential of [d]? *)
Definition requires_credential (d : INodeTypeDescription.t) (name : string)
  : Prop :=
  ∃ c, In c (INodeTypeDescription.credentials d) ∧
       INodeCredentialDescription.name c = name ∧
       INodeCredentialDescription.required c = true.

(** Does [d] declare a property [name] whose default is [fallback]? *)
Definition declares_parameter (d : INodeTypeDescription.t)
    (name fallback : string) : Prop :=
  ∃ p, In p (INodeTypeDescription.properties d) ∧
       INodeProperties.name p = name ∧
       INodeProperties.default p = fallback.

(** The same host with other node parameters. *)
Definition with_parameters (env : Env) (params : gmap string string) : Env :=
  {| credentials_store := credentials_store env;
     app_init := app_init env;
     node_parameters := params;
     mode := mode env;
     start_outcome := start_outcome env;
     stop_outcome := stop_outcome env;
     returnJsonArray := returnJsonArray env |}.

(** The same host in another mode. *)
Definition with_mode (env : Env) (m : string) : Env :=
  {| credentials_store := credentials_store env;
     app_init := app_init env;
     node_parameters := node_parameters env;
     mode := m;
     start_outcome := start_outcome env;
     stop_outcome := stop_outcome env;
     returnJsonArray := returnJsonArray env |}.

Definition is_lookup (c : Call) : bool :=
  match c with GetCredentials _ => true | _ => false end.

Definition is_parameter_read (c : Call) : bool :=
  match c with GetNodeParameter _ _ => true | _ => false end.

Definition is_construction (c : Call) : bool :=
  match c with NewApp _ => true | _ => false end.

Definition is_error_log (c : Call) : bool :=
  match c with LoggerError _ _ => true | _ => false end.

Definition is_info_log (c : Call) : bool :=
  match c with LoggerInfo _ => true | _ => false end.

(** Among the first [n] calls whose outcomes [o] gives, how many reject
    and how many resolve. *)
Fixpoint rejections (o : nat → option Error) (n : nat) : nat :=
  match n with
  | 0 => 0
  | S k => rejections o k + match o k with Some _ => 1 | None => 0 end
  end.

Fixpoint resolutions (o : nat → option Error) (n : nat) : nat :=
  match n with
  | 0 => 0
  | S k => resolutions o k + match o k with Some _ => 0 | None => 1 end
  end.

(** Every [app.start] and [app.stop] made so far has left one message in
    the log: an error if it rejected, an info if it resolved. *)
Definition faithful_log (env : Env) (t : Trace) : Prop :=
  count is_error_log t =
    rejections (start_outcome env) (count is_start t) +
    rejections (stop_outcome env) (count is_stop t) ∧
  count is_info_log t =
    resolutions (start_outcome env) (count is_start t) +
    resolutions (stop_outcome env) (count is_stop t).

Definition is_emit (c : Call) : bool :=
  match c with Emit _ => true | _ => false end.

Definition is_manual (a : HostAction) : bool :=
  match a with RunManual => true | _ => false end.

Definition is_close (a : HostAction) : bool :=
  match a with RunClose => true | _ => false end.

(** An inbound command that a listener under [p] receives. *)
Definition is_delivered (p : Pattern) (a : HostAction) : bool :=
  match a with
  | Inbound name _ => matches_pattern p name
  | _ => false
  end.

(** One that it receives and whose acknowledgement resolves. *)
Definition is_acknowledged (p : Pattern) (a : HostAction) : bool :=
  match a with
  | Inbound name args =>
      matches_pattern p name &&
      match ack args with None => true | Some _ => false end
  | _ => false
  end.

Fixpoint tally (f : HostAction → bool) (actions : list HostAction) : nat :=
  match actions with
  | [] => 0
  | a :: actions' => (if f a then 1 else 0) + tally f actions'
  end.

(** The calls an action adds to the trace [t]; they are the same for the
    two nodes. *)
Definition action_calls (p : Pattern) (env : Env) (t : Trace)
    (a : HostAction) : Trace :=
  match a with
  | RunManual =>
      [AppStart;
       match start_outcome env (count is_start t) with
       | None => LoggerInfo "Started Slack Socket app in test mode"
       | Some e =>
           LoggerError "Error starting Slack Socket app in test mode:" e
       end]
  | RunClose =>
      [AppStop;
       match stop_outcome env (count is_stop t) with
       | None => LoggerInfo "Stopped Slack Socket app"
       | Some e => LoggerError "Error stopping Slack Socket app:" e
       end]
  | Inbound name args =>
      if matches_pattern p name
      then Ack ::
           match ack args with
           | None => [Emit [returnJsonArray env (forwarded args)]]
           | Some _ => []
           end
      else []
  end.

(** The starts a setup in mode [m] makes itself. *)
Definition own_starts (m : string) : nat :=
  if String.eqb m "trigger" then 1 else 0.

(** What delivering a command does, as seen by the SDK. *)
Definition delivery_outcome (p : Pattern) (name : string)
    (args : HandlerArgs) : Result unit :=
  if matches_pattern p name then settle (ack args) else Ok tt.

(** What each action of a session of the V2 node does. *)
Definition V2_outcome (p : Pattern) (a : HostAction) : Result unit :=
  match a with
  | Inbound name args => delivery_outcome p name args
  | _ => Ok tt
  end.

(** What each action of a session of the Dash node does, [started] being
    the number of [app.start] calls made so far. *)
Fixpoint Dash_outcomes (p : Pattern) (env : Env) (started : nat)
    (actions : list HostAction) : list (Result unit) :=
  match actions with
  | [] => []
  | RunManual :: actions' =>
      settle (start_outcome env started) ::
      Dash_outcomes p env (S started) actions'
  | RunClose :: actions' => Ok tt :: Dash_outcomes p env started actions'
  | Inbound name args :: actions' =>
      delivery_outcome p name args :: Dash_outcomes p env started actions'
  end.

(** The trace a setup that returns leaves behind: its calls up to the
    mode, and in mode ['trigger'] the start and what was logged of it. *)
Definition setup_trace (cred : SlackCredential) (env : Env) : Trace :=
  setup_calls cred (configured_pattern env) ++
  if String.eqb (mode env) "trigger"
  then [AppStart;
        match start_outcome env 0 with
        | None => LoggerInfo "Started Slack Socket app in trigger mode"
        | Some e =>
            LoggerError "Error starting Slack Socket app in trigger mode:" e
        end]
  else [].

(** *** More sample inputs *)

Definition no_credentials : Error := mkError "credentials not found".
Definition invalid_token : Error := mkError "invalid token".

(** An SDK whose second [app.start] rejects. *)
Definition second_start_fails : nat → option Error :=
  λ n, if Nat.eqb n 1 then Some connect_failed else None.

(** Parameters with the same command filter as [deploy_params] and other
    entries besides. *)
Definition busy_params : gmap string string :=
  {[ "slashCommandName" := "/deploy";
     "triggerType" := "interactiveComponent";
     "channel" := "C024BE91L" ]}.

(** A host whose credential store has nothing to give. *)
Definition env_without_credentials : Env :=
  {| credentials_store := λ _, Throw no_credentials;
     app_init := λ _, None;
     node_parameters := ∅;
     mode := "trigger";
     start_outcome := always_ok;
     stop_outcome := always_ok;
     returnJsonArray := wrap_json |}.

(** An SDK that refuses to build the client. *)
Definition env_rejecting_app : Env :=
  {| credentials_store := λ _, Ok sample_credential;
     app_init := λ _, Some invalid_token;
     node_parameters := ∅;
     mode := "trigger";
     start_outcome := always_ok;
     stop_outcome := always_ok;
     returnJsonArray := wrap_json |}.

(** * Lemmas *)

Ltac eff :=
  repeat (unfold mbind, mret, Eff_bind, Eff_ret, try_catch, throw, lift,
          getCredentials, getNodeParameter, getMode, emit,
          helpers_returnJsonArray, logger_info, logger_error, new_App,
          app_command, app_start, app_stop, call_ack, log_call, settle;
          cbn).

Lemma count_app f (t1 t2 : Trace) :
  count f (t1 ++ t2) = count f t1 + count f t2.
Proof.
  induction t1 as [|c t1 IH]; cbn; [done|]. rewrite IH. lia.
Qed.

Section Closures.
Variables (env : Env) (t : Trace).

Lemma Dash_process_run args :
  Dash.process args env t =
    match ack args with
    | None => (Ok tt, t ++ [Ack; Emit [returnJsonArray env (forwarded args)]])
    | Some e => (Throw e, t ++ [Ack])
    end.
Proof.
  destruct args as [[e|] c b x p]; unfold Dash.process; eff; [done|].
  by rewrite <- app_assoc.
Qed.

Lemma V2_process_run args :
  V2.process args env t =
    match ack args with
    | None => (Ok tt, t ++ [Ack; Emit [returnJsonArray env (forwarded args)]])
    | Some e => (Throw e, t ++ [Ack])
    end.
Proof.
  destruct args as [[e|] c b x p]; unfold V2.process; eff; [done|].
  by rewrite <- app_assoc.
Qed.

Lemma Dash_manual_run :
  Dash.manualTriggerFunction env t =
    match start_outcome env (count is_start t) with
    | None =>
        (Ok tt, t ++ [AppStart;
                      LoggerInfo "Started Slack Socket app in test mode"])
    | Some e =>
        (Throw e, t ++ [AppStart;
                        LoggerError "Error starting Slack Socket app in test mode:" e])
    end.
Proof.
  unfold Dash.manualTriggerFunction; eff.
  destruct (start_outcome env _); cbn; by rewrite <- app_assoc.
Qed.

Lemma V2_manual_run :
  V2.manualTriggerFunction env t =
    (Ok tt,
     t ++ [AppStart;
           match start_outcome env (count is_start t) with
           | None => LoggerInfo "Started Slack Socket app in test mode"
           | Some e =>
               LoggerError "Error starting Slack Socket app in test mode:" e
           end]).
Proof.
  unfold V2.manualTriggerFunction; eff.
  destruct (start_outcome env _); cbn; by rewrite <- app_assoc.
Qed.

Lemma Dash_close_run :
  Dash.closeFunction env t =
    (Ok tt,
     t ++ [AppStop;
           match stop_outcome env (count is_stop t) with
           | None => LoggerInfo "Stopped Slack Socket app"
           | Some e => LoggerError "Error stopping Slack Socket app:" e
           end]).
Proof.
  unfold Dash.closeFunction; eff.
  destruct (stop_outcome env _); cbn; by rewrite <- app_assoc.
Qed.

Lemma V2_close_run :
  V2.closeFunction env t =
    (Ok tt,
     t ++ [AppStop;
           match stop_outcome env (count is_stop t) with
           | None => LoggerInfo "Stopped Slack Socket app"
           | Some e => LoggerError "Error stopping Slack Socket app:" e
           end]).
Proof.
  unfold V2.closeFunction; eff.
  destruct (stop_outcome env _); cbn; by rewrite <- app_assoc.
Qed.

End Closures.

Section Setup.
Variables (env : Env) (w : World).

Lemma Dash_trigger_run :
  Dash.trigger env w =
    match credentials_store env "slackSocketCredentialsApi" with
    | Throw e => (Throw e, log_call credential_call w)
    | Ok cred =>
        match app_init env (options_of cred) with
        | Some e =>
            (Throw e,
             {| trace := trace w ++ [credential_call; NewApp (options_of cred)];
                listeners := [] |})
        | None =>
            let p := configured_pattern env in
            let ls := [command_listener p Dash.handler] in
            let t := trace w ++ setup_calls cred p in
            if String.eqb (mode env) "trigger" then
              match start_outcome env (count is_start (trace w)) with
              | None =>
                  (Ok Dash_response,
                   {| trace := t ++ [AppStart;
                        LoggerInfo "Started Slack Socket app in trigger mode"];
                      listeners := ls |})
              | Some e =>
                  (Throw e,
                   {| trace := t ++ [AppStart;
                        LoggerError "Error starting Slack Socket app in trigger mode:" e];
                      listeners := ls |})
              end
            else (Ok Dash_response, {| trace := t; listeners := ls |})
        end
    end.
Proof.
  unfold Dash.trigger, configured_pattern, filter_of, credential_call; eff.
  destruct (credentials_store env _) as [cred|e]; [|done].
  fold (options_of cred).
  destruct (app_init env _) as [e|]; cbn.
  { by rewrite <- app_assoc. }
  destruct (truthy _); eff.
  all: destruct (String.eqb (mode env) "trigger"); eff.
  all: rewrite ?count_app; cbn; rewrite ?Nat.add_0_r.
  all: try destruct (start_outcome env _); cbn.
  all: unfold setup_calls, command_listener.
  all: by rewrite <- ?app_assoc.
Qed.

Lemma V2_trigger_run :
  V2.trigger env w =
    match credentials_store env "slackSocketCredentialsApi" with
    | Throw e => (Throw e, log_call credential_call w)
    | Ok cred =>
        match app_init env (options_of cred) with
        | Some e =>
            (Throw e,
             {| trace := trace w ++ [credential_call; NewApp (options_of cred)];
                listeners := [] |})
        | None =>
            let p := configured_pattern env in
            let ls := [command_listener p V2.handler] in
            let t := trace w ++ setup_calls cred p in
            if String.eqb (mode env) "trigger" then
              (Ok V2_response,
               {| trace := t ++ [AppStart;
                    match start_outcome env (count is_start (trace w)) with
                    | None =>
                        LoggerInfo "Started Slack Socket app in trigger mode"
                    | Some e =>
                        LoggerError "Error starting Slack Socket app in trigger mode:" e
                    end];
                  listeners := ls |})
            else (Ok V2_response, {| trace := t; listeners := ls |})
        end
    end.
Proof.
  unfold V2.trigger, V2.setupEventListeners, configured_pattern, filter_of,
    credential_call; eff.
  destruct (credentials_store env _) as [cred|e]; [|done].
  fold (options_of cred).
  destruct (app_init env _) as [e|]; cbn.
  { by rewrite <- app_assoc. }
  destruct (truthy _); eff.
  all: destruct (String.eqb (mode env) "trigger"); eff.
  all: rewrite ?count_app; cbn; rewrite ?Nat.add_0_r.
  all: try destruct (start_outcome env _); cbn.
  all: unfold setup_calls, command_listener.
  all: by rewrite <- ?app_assoc.
Qed.

End Setup.

Lemma Dash_trigger_response env w resp w' :
  Dash.trigger env w = (Ok resp, w') → resp = Dash_response.
Proof.
  rewrite Dash_trigger_run. intros H.
  repeat (case_match; try discriminate); cbn in H; congruence.
Qed.

Lemma V2_trigger_response env w resp w' :
  V2.trigger env w = (Ok resp, w') → resp = V2_response.
Proof.
  rewrite V2_trigger_run. intros H.
  repeat (case_match; try discriminate); cbn in H; congruence.
Qed.

Lemma truthy_spec (s : string) : truthy s = true ↔ s ≠ "".
Proof.
  unfold truthy. rewrite negb_true_iff. apply String.eqb_neq.
Qed.

Lemma catch_all_matches (candidate : string) :
  regexp_test catch_all candidate = true.
Proof. by destruct candidate. Qed.

(** With one command listener, a delivery is a call of its callback when
    the name matches and nothing otherwise. *)
Lemma dispatch_single p (h : HandlerArgs → T unit) name args env t :
  dispatch [command_listener p h] name args env t =
    if matches_pattern p name then h args env t else (Ok tt, t).
Proof.
  cbn. destruct (matches_pattern p name); [|done].
  by destruct (h args env t) as [[[]|e] t1].
Qed.

(** A manual test run of the Dash node filtered on [/deploy]: the start,
    one command forwarded, one of another name ignored, one whose
    acknowledgement rejects, and a teardown whose stop fails. *)
Example dash_manual_session :
  session Dash.trigger sample_actions
    (sample_env "manual" deploy_params always_ok always_fails)
  = (Ok tt,
     [Ok tt; Ok tt; Ok tt; Throw (mkError "socket closed"); Ok tt],
     setup_calls sample_credential (PString "/deploy") ++
     [AppStart; LoggerInfo "Started Slack Socket app in test mode";
      Ack; Emit [wrap_json (forwarded sample_args)];
      Ack;
      AppStop; LoggerError "Error stopping Slack Socket app:" connect_failed]).
Proof. reflexivity. Qed.

(** * The claims *)

(** C1. When the node runs in trigger mode and [app.start] fails, the
    setup routine of SlackSocketDashTrigger logs the error and throws it
    again to the host, while the setup routine of
    SlackSocketTriggerV2Trigger logs the same error and returns its
    response normally. *)
Theorem start_failure_in_trigger_mode env w cred e :
  credentials_store env "slackSocketCredentialsApi" = Ok cred →
  app_init env (options_of cred) = None →
  mode env = "trigger" →
  start_outcome env (count is_start (trace w)) = Some e →
  let failed :=
    trace w ++ setup_calls cred (configured_pattern env) ++
      [AppStart;
       LoggerError "Error starting Slack Socket app in trigger mode:" e] in
  (∃ w', Dash.trigger env w = (Throw e, w') ∧ trace w' = failed) ∧
  (∃ w', V2.trigger env w = (Ok V2_response, w') ∧ trace w' = failed).
Proof.
  intros Hcred Happ Hmode Hstart failed.
  rewrite Dash_trigger_run, V2_trigger_run, Hcred, Happ, Hmode, Hstart.
  cbn. subst failed. split; eexists; (split; [reflexivity|]); cbn.
  all: by rewrite <- app_assoc.
Qed.

Lemma start_failure_in_trigger_mode_witness :
  fst (Dash.trigger (sample_env "trigger" ∅ always_fails always_ok) initial)
    = Throw connect_failed ∧
  fst (V2.trigger (sample_env "trigger" ∅ always_fails always_ok) initial)
    = Ok V2_response.
Proof.
  destruct (start_failure_in_trigger_mode
              (sample_env "trigger" ∅ always_fails always_ok) initial
              sample_credential connect_failed
              eq_refl eq_refl eq_refl eq_refl)
    as [[wd [Hd _]] [wv [Hv _]]].
  rewrite Hd, Hv. split; reflexivity.
Defined.

(** C2. Every invocation of the registered handler, in both files, calls
    the acknowledgement function exactly once, and an emission is made
    only after that call, once it has resolved. *)
Theorem handler_acks_once_before_emit env t args :
  (∃ calls, snd (Dash.handler args env t) = t ++ calls ∧
            acks_once_before_emit args calls) ∧
  (∃ calls, snd (V2.handler args env t) = t ++ calls ∧
            acks_once_before_emit args calls).
Proof.
  unfold Dash.handler, V2.handler.
  rewrite Dash_process_run, V2_process_run.
  destruct (ack args) as [e|] eqn:Hack; cbn.
  - split; (exists [Ack]; split; [done|]); (split; [done|]).
    all: intros [|c [|c' pre]] data post Heq; discriminate.
  - split; eexists; (split; [reflexivity|]); (split; [done|]).
    all: intros [|c [|c' [|c'' pre]]] data post Heq; try discriminate.
    all: injection Heq as <- _ _; split; [by left|done].
Qed.

(** C9. When the acknowledgement call throws, the handler makes no
    emission for that event and the error leaves the handler; in both
    files. *)
Theorem ack_failure_stops_the_handler env t args e :
  ack args = Some e →
  Dash.handler args env t = (Throw e, t ++ [Ack]) ∧
  V2.handler args env t = (Throw e, t ++ [Ack]).
Proof.
  intros Hack. unfold Dash.handler, V2.handler.
  by rewrite Dash_process_run, V2_process_run, Hack.
Qed.

Lemma ack_failure_stops_the_handler_witness :
  Dash.handler rejected_args (sample_env "trigger" ∅ always_ok always_ok) []
    = (Throw (mkError "socket closed"), [Ack]) ∧
  V2.handler rejected_args (sample_env "trigger" ∅ always_ok always_ok) []
    = (Throw (mkError "socket closed"), [Ack]).
Proof.
  exact (ack_failure_stops_the_handler
           (sample_env "trigger" ∅ always_ok always_ok) [] rejected_args
           (mkError "socket closed") eq_refl).
Defined.

(** C6. For an acknowledged event the handler makes one emission; its
    argument is an array with one element, what the host's
    [returnJsonArray] returns for the object holding exactly the fields
    [command], [body], [context] and [payload] of the event, each as it
    was received. *)
Theorem emission_forwards_the_four_fields env t args :
  ack args = None →
  let data :=
    [returnJsonArray env
       (JObject [("command", prop (command args));
                 ("body", prop (body args));
                 ("context", prop (context args));
                 ("payload", prop (payload args))])] in
  Dash.handler args env t = (Ok tt, t ++ [Ack; Emit data]) ∧
  V2.handler args env t = (Ok tt, t ++ [Ack; Emit data]).
Proof.
  intros Hack data. unfold Dash.handler, V2.handler.
  by rewrite Dash_process_run, V2_process_run, Hack.
Qed.

Lemma emission_forwards_the_four_fields_witness :
  Dash.handler sample_args (sample_env "trigger" ∅ always_ok always_ok) []
    = (Ok tt,
       [Ack;
        Emit [[{| json := JObject
                    [("command", JObject [("command", JString "/deploy")]);
                     ("body", JObject [("text", JString "now")]);
                     ("context", JUndefined);
                     ("payload", JString "p")] |}]]]) ∧
  V2.handler sample_args (sample_env "trigger" ∅ always_ok always_ok) []
    = (Ok tt,
       [Ack;
        Emit [[{| json := JObject
                    [("command", JObject [("command", JString "/deploy")]);
                     ("body", JObject [("text", JString "now")]);
                     ("context", JUndefined);
                     ("payload", JString "p")] |}]]]).
Proof.
  exact (emission_forwards_the_four_fields
           (sample_env "trigger" ∅ always_ok always_ok) [] sample_args
           eq_refl).
Defined.

(** C5. The teardown callback that [trigger] returns, in both files,
    calls [app.stop] whatever happened before, and returns normally
    whatever [app.stop] does: a failure is logged and goes no further. *)
Theorem close_always_stops_and_never_throws env w resp w' t :
  Dash.trigger env w = (Ok resp, w') ∨ V2.trigger env w = (Ok resp, w') →
  ITriggerResponse.closeFunction resp env t =
    (Ok tt,
     t ++ [AppStop;
           match stop_outcome env (count is_stop t) with
           | None => LoggerInfo "Stopped Slack Socket app"
           | Some e => LoggerError "Error stopping Slack Socket app:" e
           end]).
Proof.
  intros [H|H].
  - apply Dash_trigger_response in H as ->. apply Dash_close_run.
  - apply V2_trigger_response in H as ->. apply V2_close_run.
Qed.

Lemma close_always_stops_and_never_throws_witness :
  ITriggerResponse.closeFunction V2_response
    (sample_env "trigger" ∅ always_fails always_fails) [AppStop]
  = (Ok tt,
     [AppStop; AppStop;
      LoggerError "Error stopping Slack Socket app:" connect_failed]).
Proof.
  pose (env := sample_env "trigger" ∅ always_fails always_fails).
  assert (HV : V2.trigger env initial
               = (Ok V2_response, snd (V2.trigger env initial)))
    by (vm_compute; reflexivity).
  exact (close_always_stops_and_never_throws env initial _ _ [AppStop]
           (or_intror HV)).
Defined.

(** C10. The same divergence on the manual test path: when [app.start]
    fails inside [manualTriggerFunction], the one returned by
    SlackSocketDashTrigger logs the error and throws it again, the one
    returned by SlackSocketTriggerV2Trigger logs it and resolves; the
    latter resolves in every case. *)
Theorem start_failure_in_manual_test env w respD wD respV wV t e :
  Dash.trigger env w = (Ok respD, wD) →
  V2.trigger env w = (Ok respV, wV) →
  start_outcome env (count is_start t) = Some e →
  let failed :=
    t ++ [AppStart;
          LoggerError "Error starting Slack Socket app in test mode:" e] in
  ITriggerResponse.manualTriggerFunction respD env t = (Throw e, failed) ∧
  ITriggerResponse.manualTriggerFunction respV env t = (Ok tt, failed) ∧
  ∀ t', fst (ITriggerResponse.manualTriggerFunction respV env t') = Ok tt.
Proof.
  intros HD HV Hstart failed.
  apply Dash_trigger_response in HD as ->.
  apply V2_trigger_response in HV as ->. cbn.
  rewrite Dash_manual_run, V2_manual_run, Hstart.
  repeat split. intros t'. by rewrite V2_manual_run.
Qed.

Lemma start_failure_in_manual_test_witness :
  Dash.manualTriggerFunction
    (sample_env "manual" ∅ always_fails always_ok) []
  = (Throw connect_failed,
     [AppStart;
      LoggerError "Error starting Slack Socket app in test mode:"
        connect_failed]) ∧
  V2.manualTriggerFunction
    (sample_env "manual" ∅ always_fails always_ok) []
  = (Ok tt,
     [AppStart;
      LoggerError "Error starting Slack Socket app in test mode:"
        connect_failed]).
Proof.
  pose (env := sample_env "manual" ∅ always_fails always_ok).
  assert (HD : Dash.trigger env initial
               = (Ok Dash_response, snd (Dash.trigger env initial)))
    by (vm_compute; reflexivity).
  assert (HV : V2.trigger env initial
               = (Ok V2_response, snd (V2.trigger env initial)))
    by (vm_compute; reflexivity).
  destruct (start_failure_in_manual_test env initial _ _ _ _ []
              connect_failed HD HV eq_refl) as (H1 & H2 & _).
  split; [exact H1 | exact H2].
Defined.

(** C3. In both files the setup registers one command listener.  With a
    non-empty filter its pattern is that very string, so that only the
    command of that exact name invokes the handler; with the empty filter
    its pattern is the catch-all [/.*/], so that every command invokes
    it. *)
Theorem slash_command_filter env w cred :
  credentials_store env "slackSocketCredentialsApi" = Ok cred →
  app_init env (options_of cred) = None →
  ∃ p,
    (∃ r w', Dash.trigger env w = (r, w') ∧
             listeners w' = [command_listener p Dash.handler] ∧
             count is_command (trace w') = count is_command (trace w) + 1 ∧
             ∀ name args t,
               dispatch (listeners w') name args env t =
                 if matches_pattern p name then Dash.handler args env t
                 else (Ok tt, t)) ∧
    (∃ r w', V2.trigger env w = (r, w') ∧
             listeners w' = [command_listener p V2.handler] ∧
             count is_command (trace w') = count is_command (trace w) + 1 ∧
             ∀ name args t,
               dispatch (listeners w') name args env t =
                 if matches_pattern p name then V2.handler args env t
                 else (Ok tt, t)) ∧
    (filter_of env ≠ "" →
       p = PString (filter_of env) ∧
       ∀ name, matches_pattern p name = true ↔ name = filter_of env) ∧
    (filter_of env = "" →
       p = PRegExp catch_all ∧
       ∀ name, matches_pattern p name = true).
Proof.
  intros Hcred Happ. exists (configured_pattern env).
  rewrite Dash_trigger_run, V2_trigger_run, Hcred, Happ. cbn.
  split; [|split; [|split]].
  - destruct (String.eqb (mode env) "trigger");
      [destruct (start_outcome env _)|]; do 2 eexists.
    all: split; [reflexivity|]; split; [done|]; cbn [trace listeners].
    all: split; [|intros; apply dispatch_single].
    all: unfold setup_calls; rewrite !count_app; cbn; lia.
  - destruct (String.eqb (mode env) "trigger");
      [destruct (start_outcome env _)|]; do 2 eexists.
    all: split; [reflexivity|]; split; [done|]; cbn [trace listeners].
    all: split; [|intros; apply dispatch_single].
    all: unfold setup_calls; rewrite !count_app; cbn; lia.
  - intros Hne. unfold configured_pattern.
    apply truthy_spec in Hne as ->. split; [done|].
    intros name. cbn. rewrite String.eqb_eq. split; congruence.
  - intros Heq. unfold configured_pattern. rewrite Heq. cbn.
    split; [done|]. apply catch_all_matches.
Qed.

Lemma slash_command_filter_witness :
  ∃ w', snd (Dash.trigger
               (sample_env "manual" deploy_params always_ok always_ok)
               initial) = w' ∧
        map pattern (listeners w') = [PString "/deploy"] ∧
        matches_pattern (PString "/deploy") "/deploy" = true ∧
        matches_pattern (PString "/deploy") "/deployment" = false.
Proof.
  pose (env := sample_env "manual" deploy_params always_ok always_ok).
  assert (Hcred : credentials_store env "slackSocketCredentialsApi"
                  = Ok sample_credential) by reflexivity.
  assert (Happ : app_init env (options_of sample_credential) = None)
    by reflexivity.
  destruct (slash_command_filter env initial sample_credential Hcred Happ)
    as (p & (r & w' & HD & Hls & _ & _) & _ & Hne & _).
  assert (Hfilter : filter_of env ≠ "") by (vm_compute; discriminate).
  destruct (Hne Hfilter) as [Hp _].
  exists w'. fold env. rewrite HD, Hls, Hp. repeat split.
Defined.

(** ** The trigger type *)

(** Neither [trigger] reads the [triggerType] parameter: whatever it is
    set to, the setup makes the same calls and leaves the same listeners. *)
Lemma trigger_type_is_never_read env ty w :
  Dash.trigger (with_trigger_type env ty) w = Dash.trigger env w ∧
  V2.trigger (with_trigger_type env ty) w = V2.trigger env w.
Proof.
  rewrite !Dash_trigger_run, !V2_trigger_run.
  assert (Hp : configured_pattern (with_trigger_type env ty)
               = configured_pattern env).
  { unfold configured_pattern, filter_of; cbn.
    by rewrite lookup_insert_ne. }
  rewrite Hp. done.
Qed.

(** C4. With the trigger type set to [events] (the slash-command field is
    then hidden and keeps its default), each setup still registers its one
    handler with [app.command] under the catch-all pattern, and nothing
    with [app.event] or [app.action]. *)
Theorem events_trigger_type_registers_a_command_listener :
  let env := sample_env "trigger" events_params always_ok always_ok in
  let wD := snd (Dash.trigger env initial) in
  let wV := snd (V2.trigger env initial) in
  (registrations (trace wD) = [AppCommand (PRegExp catch_all)] ∧
   map kind (listeners wD) = [OnCommand]) ∧
  (registrations (trace wV) = [AppCommand (PRegExp catch_all)] ∧
   map kind (listeners wV) = [OnCommand]).
Proof. vm_compute. done. Qed.

(** ** The two nodes side by side *)

Lemma handlers_equal : Dash.handler = V2.handler.
Proof. reflexivity. Qed.

Lemma run_actions_agree env p actions t :
  (∀ n, start_outcome env n = None) →
  run_actions Dash_response [command_listener p Dash.handler] actions env t =
  run_actions V2_response [command_listener p V2.handler] actions env t.
Proof.
  intros Hstart. revert t.
  induction actions as [|a actions IH]; intros t; [done|].
  cbn [run_actions].
  assert (Ha : run_action Dash_response [command_listener p Dash.handler] a env t
             = run_action V2_response [command_listener p V2.handler] a env t).
  { destruct a; cbn [run_action]; cbn.
    - by rewrite Dash_manual_run, V2_manual_run, Hstart.
    - by rewrite Dash_close_run, V2_close_run.
    - by rewrite handlers_equal. }
  rewrite Ha. clear Ha. destruct (run_action _ _ a env t) as [r t1].
  by rewrite IH.
Qed.

(** C7, as the spec has it, fails: in trigger mode with a failing
    [app.start] one setup throws and the other returns. *)
Lemma nodes_differ_on_start_failure :
  session Dash.trigger [] (sample_env "trigger" ∅ always_fails always_ok) ≠
  session V2.trigger [] (sample_env "trigger" ∅ always_fails always_ok).
Proof. intros H. vm_compute in H. discriminate. Qed.

(** C7, amended. For every mode, credential set, configuration, sequence
    of lifecycle calls and inbound events, and every outcome of the
    credential lookup, of the client's construction, of the
    acknowledgements and of [app.stop], the two setups make the same calls
    and have the same outcomes, provided no [app.start] fails. *)
Theorem nodes_agree_when_start_succeeds env actions :
  (∀ n, start_outcome env n = None) →
  session Dash.trigger actions env = session V2.trigger actions env.
Proof.
  intros Hstart. unfold session.
  rewrite Dash_trigger_run, V2_trigger_run.
  destruct (credentials_store env _) as [cred|e]; [|done].
  destruct (app_init env _) as [e|]; [done|]. cbn zeta.
  destruct (String.eqb (mode env) "trigger").
  - rewrite Hstart. cbn [trace listeners]. by rewrite run_actions_agree.
  - cbn [trace listeners]. by rewrite run_actions_agree.
Qed.

Lemma nodes_agree_when_start_succeeds_witness :
  session Dash.trigger sample_actions
    (sample_env "trigger" deploy_params always_ok always_fails) =
  session V2.trigger sample_actions
    (sample_env "trigger" deploy_params always_ok always_fails).
Proof.
  exact (nodes_agree_when_start_succeeds
           (sample_env "trigger" deploy_params always_ok always_fails)
           sample_actions (λ n, eq_refl)).
Defined.

(** ** Registration comes first *)

Lemma guarded_true t : guarded true t = true.
Proof. induction t as [|c t IH]; [done|]. by destruct c. Qed.

Lemma guarded_sound seen t :
  guarded seen t = true →
  ∀ pre post, t = pre ++ AppStart :: post →
    seen = true ∨ ∃ p, In (AppCommand p) pre.
Proof.
  revert seen. induction t as [|c t IH]; intros seen Hg pre post Heq.
  { by destruct pre. }
  destruct pre as [|c' pre]; cbn in Heq; injection Heq as -> Ht.
  - cbn in Hg. apply andb_true_iff in Hg as [Hseen _]. by left.
  - assert (Htail : ∀ seen', guarded seen' t = true →
              seen' = true ∨ ∃ p, In (AppCommand p) (c' :: pre)).
    { intros seen' Hg'. destruct (IH seen' Hg' pre post Ht) as [?|[p Hp]];
        [by left|]. right. exists p. by right. }
    destruct c'; cbn in Hg; try (by apply Htail).
    + right. eexists. by left.
    + apply andb_true_iff in Hg as [_ Hg]. by apply Htail.
Qed.

Lemma guarded_registered t :
  guarded false t = true → registered_before_start t.
Proof.
  intros Hg pre post Heq.
  by destruct (guarded_sound false t Hg pre post Heq).
Qed.

Section Appends.
Variables (resp : ITriggerResponse.t) (h : HandlerArgs → T unit).
Hypothesis Hnode :
  (resp = Dash_response ∧ h = Dash.handler) ∨
  (resp = V2_response ∧ h = V2.handler).

Lemma run_action_appends p a env t :
  ∃ s, snd (run_action resp [command_listener p h] a env t) = t ++ s.
Proof.
  destruct a as [| |name args]; cbn [run_action].
  - destruct Hnode as [[-> _]|[-> _]]; cbn.
    + rewrite Dash_manual_run. destruct (start_outcome env _); by eexists.
    + rewrite V2_manual_run. by eexists.
  - destruct Hnode as [[-> _]|[-> _]]; cbn.
    + rewrite Dash_close_run. by eexists.
    + rewrite V2_close_run. by eexists.
  - cbn. destruct (matches_pattern p name).
    + destruct Hnode as [[_ ->]|[_ ->]].
      * unfold Dash.handler. rewrite Dash_process_run.
        destruct (ack args); by eexists.
      * unfold V2.handler. rewrite V2_process_run.
        destruct (ack args); by eexists.
    + exists []. by rewrite app_nil_r.
Qed.

Lemma run_actions_appends p actions env t :
  ∃ s, snd (run_actions resp [command_listener p h] actions env t) = t ++ s.
Proof.
  revert t. induction actions as [|a actions IH]; intros t.
  { exists []. by rewrite app_nil_r. }
  cbn [run_actions].
  destruct (run_action_appends p a env t) as [s1 Hs1].
  destruct (run_action _ _ a env t) as [r t1]. cbn in Hs1. subst t1.
  destruct (IH (t ++ s1)) as [s2 Hs2].
  destruct (run_actions _ _ actions env _) as [rs t2]. cbn in *. subst t2.
  exists (s1 ++ s2). by rewrite app_assoc.
Qed.

End Appends.

(** Replaces the trace a run of actions ends with by the trace it started
    from and what was added. *)
Ltac append_only Hnode :=
  match goal with
  | |- context [run_actions ?r [command_listener ?p ?h] ?a ?e ?t] =>
      let s := fresh "s" in
      let Hs := fresh "Hs" in
      destruct (run_actions_appends r h Hnode p a e t) as [s Hs];
      destruct (run_actions r [command_listener p h] a e t) as [? ?];
      cbn in Hs; subst; cbn
  end.

(** C8. In both files and in every mode, over the whole life of a node
    (the setup, then any sequence of manual test starts, teardowns and
    inbound commands), every call of [app.start] comes after a call of
    [app.command]. *)
Theorem handler_registered_before_start env actions :
  registered_before_start (snd (session Dash.trigger actions env)) ∧
  registered_before_start (snd (session V2.trigger actions env)).
Proof.
  unfold session. rewrite Dash_trigger_run, V2_trigger_run.
  destruct (credentials_store env _) as [cred|e];
    [|split; by apply guarded_registered].
  destruct (app_init env _) as [e|];
    [split; by apply guarded_registered|].
  cbn zeta. unfold setup_calls, initial. cbn [trace app].
  split; apply guarded_registered.
  - destruct (String.eqb (mode env) "trigger");
      [destruct (start_outcome env _)|]; cbn [trace listeners snd];
      [done| |].
    all: append_only (or_introl (conj eq_refl eq_refl)
           : (Dash_response = Dash_response ∧ Dash.handler = Dash.handler) ∨
             (Dash_response = V2_response ∧ Dash.handler = V2.handler)).
    all: apply guarded_true.
  - destruct (String.eqb (mode env) "trigger");
      [destruct (start_outcome env _)|]; cbn [trace listeners snd].
    all: append_only (or_intror (conj eq_refl eq_refl)
           : (V2_response = Dash_response ∧ V2.handler = Dash.handler) ∨
             (V2_response = V2_response ∧ V2.handler = V2.handler)).
    all: apply guarded_true.
Qed.

Lemma handler_registered_before_start_witness :
  ∃ p, In (AppCommand p)
         (setup_calls sample_credential (PString "/deploy") ++
          [AppStart; LoggerInfo "Started Slack Socket app in trigger mode"]).
Proof.
  exact (proj1 (handler_registered_before_start
                  (sample_env "trigger" deploy_params always_ok always_ok)
                  [RunManual])
           (setup_calls sample_credential (PString "/deploy") ++
            [AppStart; LoggerInfo "Started Slack Socket app in trigger mode"])
           [LoggerInfo "Started Slack Socket app in test mode"]
           eq_refl).
Defined.

(** * Further properties of the two nodes *)

(** ** Failures before the listener is registered *)

(** X1. When the credential lookup throws, each setup throws the same
    error having made that one call: no client is built, the listeners
    are untouched, nothing is started or logged. *)
Theorem credential_failure_aborts_setup env w e :
  credentials_store env "slackSocketCredentialsApi" = Throw e →
  let w' :=
    {| trace := trace w ++ [GetCredentials "slackSocketCredentialsApi"];
       listeners := listeners w |} in
  Dash.trigger env w = (Throw e, w') ∧ V2.trigger env w = (Throw e, w').
Proof.
  intros Hcred w'. by rewrite Dash_trigger_run, V2_trigger_run, Hcred.
Qed.

Lemma credential_failure_aborts_setup_witness :
  Dash.trigger env_without_credentials initial
    = (Throw no_credentials,
       {| trace := [GetCredentials "slackSocketCredentialsApi"];
          listeners := [] |}) ∧
  V2.trigger env_without_credentials initial
    = (Throw no_credentials,
       {| trace := [GetCredentials "slackSocketCredentialsApi"];
          listeners := [] |}).
Proof.
  exact (credential_failure_aborts_setup env_without_credentials initial
           no_credentials eq_refl).
Defined.

(** X2. When the construction of the client throws, each setup throws
    the same error after the credential lookup and the construction: it
    reads no parameter, registers no listener and starts nothing. *)
Theorem client_failure_aborts_setup env w cred e :
  credentials_store env "slackSocketCredentialsApi" = Ok cred →
  app_init env (options_of cred) = Some e →
  let w' :=
    {| trace := trace w ++ [GetCredentials "slackSocketCredentialsApi";
                            NewApp (options_of cred)];
       listeners := [] |} in
  Dash.trigger env w = (Throw e, w') ∧ V2.trigger env w = (Throw e, w').
Proof.
  intros Hcred Happ w'.
  by rewrite Dash_trigger_run, V2_trigger_run, Hcred, Happ.
Qed.

Lemma client_failure_aborts_setup_witness :
  Dash.trigger env_rejecting_app initial
    = (Throw invalid_token,
       {| trace := [GetCredentials "slackSocketCredentialsApi";
                    NewApp (options_of sample_credential)];
          listeners := [] |}) ∧
  V2.trigger env_rejecting_app initial
    = (Throw invalid_token,
       {| trace := [GetCredentials "slackSocketCredentialsApi";
                    NewApp (options_of sample_credential)];
          listeners := [] |}).
Proof.
  exact (client_failure_aborts_setup env_rejecting_app initial
           sample_credential invalid_token eq_refl eq_refl).
Defined.

(** X3. The setup of SlackSocketTriggerV2Trigger throws [e] exactly when
    the credential lookup throws [e] or the construction of the client
    does: nothing that happens later makes it fail. *)
Theorem V2_setup_failures env w e :
  (∃ w', V2.trigger env w = (Throw e, w')) ↔
  credentials_store env "slackSocketCredentialsApi" = Throw e ∨
  ∃ cred, credentials_store env "slackSocketCredentialsApi" = Ok cred ∧
          app_init env (options_of cred) = Some e.
Proof.
  rewrite V2_trigger_run.
  destruct (credentials_store env _) as [cred|e'].
  - destruct (app_init env (options_of cred)) as [e'|] eqn:Happ; cbn zeta.
    + split.
      * intros [w' [= ->]]. right. by exists cred.
      * intros [[=]|(c & [= <-] & Happ')].
        rewrite Happ in Happ'. injection Happ' as ->. by eexists.
    + split.
      * intros [w' H]. destruct (String.eqb _ _); discriminate.
      * intros [[=]|(c & [= <-] & Happ')]. congruence.
  - split.
    + intros [w' [= ->]]. by left.
    + intros [[= ->]|(c & [=] & _)]. by eexists.
Qed.

Lemma V2_setup_failures_witness :
  ∃ w', V2.trigger env_rejecting_app initial = (Throw invalid_token, w').
Proof.
  apply (proj2 (V2_setup_failures env_rejecting_app initial invalid_token)).
  right. exists sample_credential. split; reflexivity.
Defined.

(** X4. The setup of SlackSocketDashTrigger throws [e] exactly when the
    credential lookup throws [e], or the construction of the client does,
    or the mode is ['trigger'] and [app.start] rejects with [e]. *)
Theorem Dash_setup_failures env w e :
  (∃ w', Dash.trigger env w = (Throw e, w')) ↔
  credentials_store env "slackSocketCredentialsApi" = Throw e ∨
  ∃ cred, credentials_store env "slackSocketCredentialsApi" = Ok cred ∧
          (app_init env (options_of cred) = Some e ∨
           (app_init env (options_of cred) = None ∧
            mode env = "trigger" ∧
            start_outcome env (count is_start (trace w)) = Some e)).
Proof.
  rewrite Dash_trigger_run.
  destruct (credentials_store env _) as [cred|e'].
  - destruct (app_init env (options_of cred)) as [e'|] eqn:Happ; cbn zeta.
    + split.
      * intros [w' [= ->]]. right. exists cred. split; [done|]. by left.
      * intros [[=]|(c & [= <-] & [Happ'|[Happ' _]])]; [|congruence].
        rewrite Happ in Happ'. injection Happ' as ->. by eexists.
    + destruct (String.eqb (mode env) "trigger") eqn:Hmode.
      * apply String.eqb_eq in Hmode.
        destruct (start_outcome env _) as [e'|] eqn:Hstart.
        -- split.
           ++ intros [w' [= ->]]. right. exists cred. split; [done|].
              by right.
           ++ intros [[=]|(c & [= <-] & [Happ'|(_ & _ & [= ->])])];
                [congruence|]. by eexists.
        -- split.
           ++ intros [w' [=]].
           ++ intros [[=]|(c & [= <-] & [Happ'|(_ & _ & [=])])].
              congruence.
      * apply String.eqb_neq in Hmode. split.
        -- intros [w' [=]].
        -- intros [[=]|(c & [= <-] & [Happ'|(_ & Hm & _)])]; congruence.
  - split.
    + intros [w' [= ->]]. by left.
    + intros [[= ->]|(c & [=] & _)]. by eexists.
Qed.

Lemma Dash_setup_failures_witness :
  ∃ w', Dash.trigger (sample_env "trigger" ∅ always_fails always_ok) initial
        = (Throw connect_failed, w').
Proof.
  apply (proj2 (Dash_setup_failures
                  (sample_env "trigger" ∅ always_fails always_ok) initial
                  connect_failed)).
  right. exists sample_credential. split; [reflexivity|].
  right. repeat split.
Defined.

(** ** The two ways a setup ends well *)

(** X5. In any mode other than ['trigger'], with credentials and a client
    at hand, each setup returns its response after registering its one
    listener: it does not call [app.start] and logs nothing. *)
Theorem setup_outside_trigger_mode env w cred :
  credentials_store env "slackSocketCredentialsApi" = Ok cred →
  app_init env (options_of cred) = None →
  mode env ≠ "trigger" →
  let p := configured_pattern env in
  let t := trace w ++ setup_calls cred p in
  Dash.trigger env w =
    (Ok Dash_response,
     {| trace := t; listeners := [command_listener p Dash.handler] |}) ∧
  V2.trigger env w =
    (Ok V2_response,
     {| trace := t; listeners := [command_listener p V2.handler] |}).
Proof.
  intros Hcred Happ Hmode p t. apply String.eqb_neq in Hmode.
  by rewrite Dash_trigger_run, V2_trigger_run, Hcred, Happ, Hmode.
Qed.

Lemma setup_outside_trigger_mode_witness :
  fst (Dash.trigger (sample_env "manual" ∅ always_fails always_ok) initial)
    = Ok Dash_response ∧
  trace (snd (V2.trigger (sample_env "manual" ∅ always_fails always_ok)
                initial))
    = setup_calls sample_credential (PRegExp catch_all).
Proof.
  pose (env := sample_env "manual" ∅ always_fails always_ok).
  assert (Hmode : mode env ≠ "trigger") by discriminate.
  destruct (setup_outside_trigger_mode env initial sample_credential
              eq_refl eq_refl Hmode) as [HD HV].
  fold env. rewrite HD, HV. split; reflexivity.
Defined.

(** X6. In mode ['trigger'], when [app.start] resolves, each setup
    returns its response after one [app.start] and one info message. *)
Theorem setup_in_trigger_mode env w cred :
  credentials_store env "slackSocketCredentialsApi" = Ok cred →
  app_init env (options_of cred) = None →
  mode env = "trigger" →
  start_outcome env (count is_start (trace w)) = None →
  let p := configured_pattern env in
  let t :=
    trace w ++ setup_calls cred p ++
      [AppStart; LoggerInfo "Started Slack Socket app in trigger mode"] in
  Dash.trigger env w =
    (Ok Dash_response,
     {| trace := t; listeners := [command_listener p Dash.handler] |}) ∧
  V2.trigger env w =
    (Ok V2_response,
     {| trace := t; listeners := [command_listener p V2.handler] |}).
Proof.
  intros Hcred Happ Hmode Hstart p t.
  rewrite Dash_trigger_run, V2_trigger_run, Hcred, Happ, Hmode, Hstart.
  cbn. subst t. by rewrite <- !app_assoc.
Qed.

Lemma setup_in_trigger_mode_witness :
  fst (Dash.trigger (sample_env "trigger" ∅ always_ok always_ok) initial)
    = Ok Dash_response ∧
  trace (snd (V2.trigger (sample_env "trigger" ∅ always_ok always_ok)
                initial))
    = setup_calls sample_credential (PRegExp catch_all) ++
      [AppStart; LoggerInfo "Started Slack Socket app in trigger mode"].
Proof.
  pose (env := sample_env "trigger" ∅ always_ok always_ok).
  destruct (setup_in_trigger_mode env initial sample_credential
              eq_refl eq_refl eq_refl eq_refl) as [HD HV].
  fold env. rewrite HD, HV. split; reflexivity.
Defined.

(** ** What the actions of a session add *)

Lemma filter_nil_app (f : Call → bool) (t s : Trace) :
  List.filter f s = [] → List.filter f (t ++ s) = List.filter f t.
Proof. intros H. by rewrite List.filter_app, H, app_nil_r. Qed.

Section Actions.
Variables (resp : ITriggerResponse.t) (h : HandlerArgs → T unit).
Hypothesis Hnode :
  (resp = Dash_response ∧ h = Dash.handler) ∨
  (resp = V2_response ∧ h = V2.handler).
Variables (p : Pattern) (env : Env).

Lemma run_action_calls a t :
  snd (run_action resp [command_listener p h] a env t) =
    t ++ action_calls p env t a.
Proof.
  destruct a as [| |name args]; cbn [run_action action_calls].
  - destruct Hnode as [[-> _]|[-> _]]; cbn.
    + rewrite Dash_manual_run. by destruct (start_outcome env _).
    + by rewrite V2_manual_run.
  - destruct Hnode as [[-> _]|[-> _]]; cbn.
    + by rewrite Dash_close_run.
    + by rewrite V2_close_run.
  - rewrite dispatch_single. destruct (matches_pattern p name).
    + destruct Hnode as [[_ ->]|[_ ->]].
      * unfold Dash.handler. rewrite Dash_process_run.
        by destruct (ack args).
      * unfold V2.handler. rewrite V2_process_run.
        by destruct (ack args).
    + by rewrite app_nil_r.
Qed.

(** A count over the trace grows by one for the actions [g] picks. *)
Lemma run_actions_count (f : Call → bool) (g : HostAction → bool) :
  (∀ a t, count f (action_calls p env t a) = if g a then 1 else 0) →
  ∀ actions t,
    count f (snd (run_actions resp [command_listener p h] actions env t)) =
      count f t + tally g actions.
Proof.
  intros Hstep. induction actions as [|a actions IH]; intros t.
  { cbn. lia. }
  cbn [run_actions tally].
  pose proof (run_action_calls a t) as Ha.
  destruct (run_action _ _ a env t) as [r t1]. cbn in Ha. subst t1.
  specialize (IH (t ++ action_calls p env t a)).
  destruct (run_actions _ _ actions env _) as [rs t2]. cbn in *.
  rewrite IH, count_app, Hstep. lia.
Qed.

(** Calls that no action makes stay as the setup left them. *)
Lemma run_actions_filter (f : Call → bool) :
  (∀ a t, List.filter f (action_calls p env t a) = []) →
  ∀ actions t,
    List.filter f
      (snd (run_actions resp [command_listener p h] actions env t)) =
      List.filter f t.
Proof.
  intros Hstep. induction actions as [|a actions IH]; intros t; [done|].
  cbn [run_actions].
  pose proof (run_action_calls a t) as Ha.
  destruct (run_action _ _ a env t) as [r t1]. cbn in Ha. subst t1.
  specialize (IH (t ++ action_calls p env t a)).
  destruct (run_actions _ _ actions env _) as [rs t2]. cbn in *.
  rewrite IH. by apply filter_nil_app.
Qed.

End Actions.

Lemma action_starts p env t a :
  count is_start (action_calls p env t a) = if is_manual a then 1 else 0.
Proof.
  destruct a as [| |name args]; cbn.
  - by destruct (start_outcome env _).
  - by destruct (stop_outcome env _).
  - destruct (matches_pattern p name); [|done]. by destruct (ack args).
Qed.

Lemma action_stops p env t a :
  count is_stop (action_calls p env t a) = if is_close a then 1 else 0.
Proof.
  destruct a as [| |name args]; cbn.
  - by destruct (start_outcome env _).
  - by destruct (stop_outcome env _).
  - destruct (matches_pattern p name); [|done]. by destruct (ack args).
Qed.

Lemma action_acks p env t a :
  count is_ack (action_calls p env t a) = if is_delivered p a then 1 else 0.
Proof.
  destruct a as [| |name args]; cbn.
  - by destruct (start_outcome env _).
  - by destruct (stop_outcome env _).
  - destruct (matches_pattern p name); [|done]. by destruct (ack args).
Qed.

Lemma action_emits p env t a :
  count is_emit (action_calls p env t a) =
    if is_acknowledged p a then 1 else 0.
Proof.
  destruct a as [| |name args]; cbn.
  - by destruct (start_outcome env _).
  - by destruct (stop_outcome env _).
  - destruct (matches_pattern p name); [|done]. by destruct (ack args).
Qed.

Lemma action_registrations p env t a :
  List.filter is_registration (action_calls p env t a) = [].
Proof.
  destruct a as [| |name args]; cbn.
  - by destruct (start_outcome env _).
  - by destruct (stop_outcome env _).
  - destruct (matches_pattern p name); [|done]. by destruct (ack args).
Qed.

Lemma Dash_node :
  (Dash_response = Dash_response ∧ Dash.handler = Dash.handler) ∨
  (Dash_response = V2_response ∧ Dash.handler = V2.handler).
Proof. by left. Qed.

Lemma V2_node :
  (V2_response = Dash_response ∧ V2.handler = Dash.handler) ∨
  (V2_response = V2_response ∧ V2.handler = V2.handler).
Proof. by right. Qed.

Section Sessions.
Variables (env : Env) (cred : SlackCredential) (actions : list HostAction).
Hypothesis Hcred :
  credentials_store env "slackSocketCredentialsApi" = Ok cred.
Hypothesis Happ : app_init env (options_of cred) = None.

Let p := configured_pattern env.

Lemma V2_session_run :
  session V2.trigger actions env =
    (Ok tt,
     fst (run_actions V2_response [command_listener p V2.handler] actions
            env (setup_trace cred env)),
     snd (run_actions V2_response [command_listener p V2.handler] actions
            env (setup_trace cred env))).
Proof.
  unfold session, setup_trace. rewrite V2_trigger_run, Hcred, Happ.
  cbn zeta. fold p.
  destruct (String.eqb (mode env) "trigger"); cbn [trace listeners initial].
  all: rewrite ?app_nil_r; cbn [app].
  all: by destruct (run_actions _ _ actions env _).
Qed.

Lemma Dash_session_run :
  fst (fst (session Dash.trigger actions env)) = Ok tt →
  session Dash.trigger actions env =
    (Ok tt,
     fst (run_actions Dash_response [command_listener p Dash.handler] actions
            env (setup_trace cred env)),
     snd (run_actions Dash_response [command_listener p Dash.handler] actions
            env (setup_trace cred env))).
Proof.
  unfold session, setup_trace. rewrite Dash_trigger_run, Hcred, Happ.
  cbn zeta. fold p.
  destruct (String.eqb (mode env) "trigger");
    cbn [trace listeners initial count].
  - destruct (start_outcome env 0); cbn; [discriminate|]. intros _.
    by destruct (run_actions _ _ actions env _).
  - intros _. rewrite ?app_nil_r; cbn [app].
    by destruct (run_actions _ _ actions env _).
Qed.

Lemma setup_trace_starts :
  count is_start (setup_trace cred env) = own_starts (mode env).
Proof.
  unfold setup_trace, own_starts, setup_calls. rewrite count_app. cbn.
  destruct (String.eqb (mode env) "trigger"); [|done].
  by destruct (start_outcome env 0).
Qed.

Lemma setup_trace_quiet (f : Call → bool) :
  f AppStart = false → f GetMode = false →
  (∀ n, f (GetCredentials n) = false) → (∀ o, f (NewApp o) = false) →
  (∀ n d, f (GetNodeParameter n d) = false) →
  (∀ q, f (AppCommand q) = false) →
  (∀ m, f (LoggerInfo m) = false) → (∀ m e, f (LoggerError m e) = false) →
  count f (setup_trace cred env) = 0.
Proof.
  intros H1 H2 H3 H4 H5 H6 H7 H8.
  unfold setup_trace, setup_calls. rewrite count_app. cbn.
  rewrite H2, H3, H4, H5, H6.
  destruct (String.eqb (mode env) "trigger"); [|done]. cbn. rewrite H1.
  destruct (start_outcome env 0); by rewrite ?H7, ?H8.
Qed.

End Sessions.

(** ** Counting the calls of a session *)

(** X7. Over a session whose setup returned, [app.start] is called once
    by the setup in mode ['trigger'] and once by every manual test start,
    whether or not the client was started before, and [app.stop] is
    called once by every teardown: handlers start and stop nothing. *)
Theorem starts_and_stops_of_a_session env cred actions :
  credentials_store env "slackSocketCredentialsApi" = Ok cred →
  app_init env (options_of cred) = None →
  (fst (fst (session Dash.trigger actions env)) = Ok tt →
   count is_start (snd (session Dash.trigger actions env)) =
     own_starts (mode env) + tally is_manual actions ∧
   count is_stop (snd (session Dash.trigger actions env)) =
     tally is_close actions) ∧
  count is_start (snd (session V2.trigger actions env)) =
    own_starts (mode env) + tally is_manual actions ∧
  count is_stop (snd (session V2.trigger actions env)) =
    tally is_close actions.
Proof.
  intros Hcred Happ. split; [intros HD; split|split].
  - rewrite (Dash_session_run env cred actions Hcred Happ HD). cbn [snd].
    rewrite (run_actions_count _ _ Dash_node _ _ is_start is_manual);
      [|intros; apply action_starts].
    by rewrite setup_trace_starts.
  - rewrite (Dash_session_run env cred actions Hcred Happ HD). cbn [snd].
    rewrite (run_actions_count _ _ Dash_node _ _ is_stop is_close);
      [|intros; apply action_stops].
    by rewrite setup_trace_quiet.
  - rewrite (V2_session_run env cred actions Hcred Happ). cbn [snd].
    rewrite (run_actions_count _ _ V2_node _ _ is_start is_manual);
      [|intros; apply action_starts].
    by rewrite setup_trace_starts.
  - rewrite (V2_session_run env cred actions Hcred Happ). cbn [snd].
    rewrite (run_actions_count _ _ V2_node _ _ is_stop is_close);
      [|intros; apply action_stops].
    by rewrite setup_trace_quiet.
Qed.

Lemma starts_and_stops_of_a_session_witness :
  (count is_start
     (snd (session Dash.trigger sample_actions
             (sample_env "trigger" deploy_params always_ok always_fails)))
   = 2 ∧
   count is_stop
     (snd (session Dash.trigger sample_actions
             (sample_env "trigger" deploy_params always_ok always_fails)))
   = 1) ∧
  count is_start
    (snd (session V2.trigger sample_actions
            (sample_env "trigger" deploy_params always_ok always_fails)))
    = 2 ∧
  count is_stop
    (snd (session V2.trigger sample_actions
            (sample_env "trigger" deploy_params always_ok always_fails)))
    = 1.
Proof.
  destruct (starts_and_stops_of_a_session
              (sample_env "trigger" deploy_params always_ok always_fails)
              sample_credential sample_actions eq_refl eq_refl)
    as (HD & HV).
  split; [exact (HD eq_refl) | exact HV].
Defined.

(** X8. Over a session whose setup returned, the acknowledgement function
    is called once for every inbound command whose name the registered
    pattern matches and never for another, and there is one emission for
    every such command whose acknowledgement resolved. *)
Theorem acks_and_emissions_of_a_session env cred actions :
  credentials_store env "slackSocketCredentialsApi" = Ok cred →
  app_init env (options_of cred) = None →
  let p := configured_pattern env in
  (fst (fst (session Dash.trigger actions env)) = Ok tt →
   count is_ack (snd (session Dash.trigger actions env)) =
     tally (is_delivered p) actions ∧
   count is_emit (snd (session Dash.trigger actions env)) =
     tally (is_acknowledged p) actions) ∧
  count is_ack (snd (session V2.trigger actions env)) =
    tally (is_delivered p) actions ∧
  count is_emit (snd (session V2.trigger actions env)) =
    tally (is_acknowledged p) actions.
Proof.
  intros Hcred Happ p. split; [intros HD; split|split].
  - rewrite (Dash_session_run env cred actions Hcred Happ HD). cbn [snd].
    rewrite (run_actions_count _ _ Dash_node _ _ is_ack (is_delivered p));
      [|intros; apply action_acks].
    by rewrite setup_trace_quiet.
  - rewrite (Dash_session_run env cred actions Hcred Happ HD). cbn [snd].
    rewrite (run_actions_count _ _ Dash_node _ _ is_emit (is_acknowledged p));
      [|intros; apply action_emits].
    by rewrite setup_trace_quiet.
  - rewrite (V2_session_run env cred actions Hcred Happ). cbn [snd].
    rewrite (run_actions_count _ _ V2_node _ _ is_ack (is_delivered p));
      [|intros; apply action_acks].
    by rewrite setup_trace_quiet.
  - rewrite (V2_session_run env cred actions Hcred Happ). cbn [snd].
    rewrite (run_actions_count _ _ V2_node _ _ is_emit (is_acknowledged p));
      [|intros; apply action_emits].
    by rewrite setup_trace_quiet.
Qed.

Lemma acks_and_emissions_of_a_session_witness :
  (count is_ack
     (snd (session Dash.trigger sample_actions
             (sample_env "manual" deploy_params always_ok always_ok)))
   = 2 ∧
   count is_emit
     (snd (session Dash.trigger sample_actions
             (sample_env "manual" deploy_params always_ok always_ok)))
   = 1) ∧
  count is_ack
    (snd (session V2.trigger sample_actions
            (sample_env "manual" deploy_params always_ok always_ok)))
    = 2 ∧
  count is_emit
    (snd (session V2.trigger sample_actions
            (sample_env "manual" deploy_params always_ok always_ok)))
    = 1.
Proof.
  destruct (acks_and_emissions_of_a_session
              (sample_env "manual" deploy_params always_ok always_ok)
              sample_credential sample_actions eq_refl eq_refl)
    as (HD & HV).
  split; [exact (HD eq_refl) | exact HV].
Defined.

(** X9. Once a client is built, the only listener registration of a whole
    session is the one [app.command] of the setup: no later start,
    teardown or delivery registers anything, and nothing is ever
    registered with [app.event] or [app.action]. *)
Theorem one_registration_per_session env cred actions :
  credentials_store env "slackSocketCredentialsApi" = Ok cred →
  app_init env (options_of cred) = None →
  registrations (snd (session Dash.trigger actions env)) =
    [AppCommand (configured_pattern env)] ∧
  registrations (snd (session V2.trigger actions env)) =
    [AppCommand (configured_pattern env)].
Proof.
  intros Hcred Happ. unfold registrations. split.
  - unfold session. rewrite Dash_trigger_run, Hcred, Happ. cbn zeta.
    destruct (String.eqb (mode env) "trigger");
      [destruct (start_outcome env _)|]; cbn [trace listeners snd];
      [done| |].
    all: pose proof (run_actions_filter _ _ Dash_node (configured_pattern env)
                       env is_registration
                       (λ a t, action_registrations
                                 (configured_pattern env) env t a)
                       actions) as Hf.
    all: match goal with
         | |- context [run_actions ?r ?ls ?a ?e ?t] =>
             specialize (Hf t);
             destruct (run_actions r ls a e t) as [rs t']
         end; cbn [snd] in *; by rewrite Hf.
  - rewrite (V2_session_run env cred actions Hcred Happ). cbn [snd].
    rewrite (run_actions_filter _ _ V2_node _ _ is_registration);
      [|intros; apply action_registrations].
    unfold setup_trace, setup_calls. cbn.
    destruct (String.eqb (mode env) "trigger"); [|done].
    by destruct (start_outcome env 0).
Qed.

Lemma one_registration_per_session_witness :
  registrations
    (snd (session Dash.trigger sample_actions
            (sample_env "trigger" events_params always_ok always_ok)))
    = [AppCommand (PRegExp catch_all)].
Proof.
  exact (proj1 (one_registration_per_session
                  (sample_env "trigger" events_params always_ok always_ok)
                  sample_credential sample_actions eq_refl eq_refl)).
Defined.

(** ** What each action of a session reports *)

Lemma V2_run_actions_outcomes p env actions t :
  fst (run_actions V2_response [command_listener p V2.handler] actions env t)
    = map (V2_outcome p) actions.
Proof.
  revert t. induction actions as [|a actions IH]; intros t; [done|].
  cbn [run_actions map].
  assert (Ha : fst (run_action V2_response [command_listener p V2.handler]
                      a env t) = V2_outcome p a).
  { destruct a as [| |name args]; cbn [run_action V2_outcome].
    - cbn. by rewrite V2_manual_run.
    - cbn. by rewrite V2_close_run.
    - rewrite dispatch_single. unfold delivery_outcome.
      destruct (matches_pattern p name); [|done].
      unfold V2.handler. rewrite V2_process_run. by destruct (ack args). }
  destruct (run_action _ _ a env t) as [r t1]. cbn in Ha. subst r.
  specialize (IH t1). destruct (run_actions _ _ actions env t1) as [rs t2].
  cbn in *. by rewrite IH.
Qed.

Lemma Dash_run_actions_outcomes p env actions t :
  fst (run_actions Dash_response [command_listener p Dash.handler] actions
         env t)
    = Dash_outcomes p env (count is_start t) actions.
Proof.
  revert t. induction actions as [|a actions IH]; intros t; [done|].
  cbn [run_actions].
  pose proof (run_action_calls _ _ Dash_node p env a t) as Hcalls.
  pose proof (action_starts p env t a) as Hstarts.
  assert (Ha : Dash_outcomes p env (count is_start t) (a :: actions) =
               fst (run_action Dash_response
                      [command_listener p Dash.handler] a env t) ::
               Dash_outcomes p env
                 (count is_start t + if is_manual a then 1 else 0) actions).
  { destruct a as [| |name args]; cbn [run_action Dash_outcomes is_manual].
    - cbn. rewrite Dash_manual_run, Nat.add_1_r.
      by destruct (start_outcome env _).
    - cbn. by rewrite Dash_close_run, Nat.add_0_r.
    - rewrite dispatch_single, Nat.add_0_r. unfold delivery_outcome.
      destruct (matches_pattern p name); [|done].
      unfold Dash.handler. rewrite Dash_process_run. by destruct (ack args). }
  rewrite Ha. clear Ha.
  destruct (run_action _ _ a env t) as [r t1]. cbn in Hcalls. subst t1.
  specialize (IH (t ++ action_calls p env t a)).
  destruct (run_actions _ _ actions env _) as [rs t2]. cbn in *.
  by rewrite IH, count_app, Hstarts.
Qed.

(** X10. Once the setup of SlackSocketTriggerV2Trigger has a client, it
    returns, and in the session that follows no manual test start and no
    teardown ever reports a failure; a delivery fails only for a command
    the pattern matches whose acknowledgement rejects, with that error. *)
Theorem V2_session_outcomes env cred actions :
  credentials_store env "slackSocketCredentialsApi" = Ok cred →
  app_init env (options_of cred) = None →
  fst (session V2.trigger actions env) =
    (Ok tt, map (V2_outcome (configured_pattern env)) actions).
Proof.
  intros Hcred Happ.
  rewrite (V2_session_run env cred actions Hcred Happ). cbn [fst].
  by rewrite V2_run_actions_outcomes.
Qed.

Lemma V2_session_outcomes_witness :
  fst (session V2.trigger sample_actions
         (sample_env "trigger" deploy_params always_fails always_fails))
  = (Ok tt, [Ok tt; Ok tt; Ok tt; Throw (mkError "socket closed"); Ok tt]).
Proof.
  exact (V2_session_outcomes
           (sample_env "trigger" deploy_params always_fails always_fails)
           sample_credential sample_actions eq_refl eq_refl).
Defined.

(** X11. In a session of SlackSocketDashTrigger whose setup returned, a
    teardown never reports a failure, a delivery reports the error of a
    rejected acknowledgement as for the other node, and the [k]-th manual
    test start reports what the corresponding call of [app.start] did:
    a failed start can be tried again by starting the test again. *)
Theorem Dash_session_outcomes env cred actions :
  credentials_store env "slackSocketCredentialsApi" = Ok cred →
  app_init env (options_of cred) = None →
  fst (fst (session Dash.trigger actions env)) = Ok tt →
  snd (fst (session Dash.trigger actions env)) =
    Dash_outcomes (configured_pattern env) env (own_starts (mode env))
      actions.
Proof.
  intros Hcred Happ HD.
  rewrite (Dash_session_run env cred actions Hcred Happ HD). cbn [fst snd].
  by rewrite Dash_run_actions_outcomes, setup_trace_starts.
Qed.

Lemma Dash_session_outcomes_witness :
  snd (fst (session Dash.trigger [RunManual; RunManual; RunClose]
              (sample_env "trigger" deploy_params second_start_fails
                 always_fails)))
  = [Throw connect_failed; Ok tt; Ok tt].
Proof.
  exact (Dash_session_outcomes
           (sample_env "trigger" deploy_params second_start_fails
              always_fails)
           sample_credential [RunManual; RunManual; RunClose]
           eq_refl eq_refl eq_refl).
Defined.

(** ** What a setup reads of its host *)

Section Hosts.
Variables (resp : ITriggerResponse.t) (h : HandlerArgs → T unit).
Hypothesis Hnode :
  (resp = Dash_response ∧ h = Dash.handler) ∨
  (resp = V2_response ∧ h = V2.handler).

(** The closures and the handler look at the host's parameters and mode no
    more. *)
Lemma run_actions_same_host p env env' actions t :
  start_outcome env' = start_outcome env →
  stop_outcome env' = stop_outcome env →
  returnJsonArray env' = returnJsonArray env →
  run_actions resp [command_listener p h] actions env' t =
  run_actions resp [command_listener p h] actions env t.
Proof.
  intros Hstart Hstop Hjson. revert t.
  induction actions as [|a actions IH]; intros t; [done|].
  cbn [run_actions].
  assert (Ha : run_action resp [command_listener p h] a env' t =
               run_action resp [command_listener p h] a env t).
  { destruct a as [| |name args]; cbn [run_action].
    - destruct Hnode as [[-> _]|[-> _]]; cbn.
      + by rewrite !Dash_manual_run, Hstart.
      + by rewrite !V2_manual_run, Hstart.
    - destruct Hnode as [[-> _]|[-> _]]; cbn.
      + by rewrite !Dash_close_run, Hstop.
      + by rewrite !V2_close_run, Hstop.
    - rewrite !dispatch_single. destruct (matches_pattern p name); [|done].
      destruct Hnode as [[_ ->]|[_ ->]].
      + unfold Dash.handler. by rewrite !Dash_process_run, Hjson.
      + unfold V2.handler. by rewrite !V2_process_run, Hjson. }
  rewrite Ha. clear Ha. destruct (run_action _ _ a env t) as [r t1].
  by rewrite IH.
Qed.

End Hosts.

(** X12. Of the node parameters a node reads the command filter and
    nothing else: two hosts that differ only in their node parameters and
    give the same value for [slashCommandName] (absent counting as ['']),
    see the same session, call for call. *)
Theorem only_the_command_filter_is_read env params actions :
  filter_of (with_parameters env params) = filter_of env →
  session Dash.trigger actions (with_parameters env params) =
    session Dash.trigger actions env ∧
  session V2.trigger actions (with_parameters env params) =
    session V2.trigger actions env.
Proof.
  intros Hfilter.
  assert (Hp : configured_pattern (with_parameters env params)
               = configured_pattern env).
  { unfold configured_pattern. by rewrite Hfilter. }
  unfold session. rewrite !Dash_trigger_run, !V2_trigger_run, Hp.
  cbn [credentials_store app_init mode start_outcome with_parameters].
  destruct (credentials_store env _) as [cred|e]; [|done].
  destruct (app_init env _) as [e|]; [done|]. cbn zeta.
  split.
  - destruct (String.eqb (mode env) "trigger");
      [destruct (start_outcome env _)|]; cbn [trace listeners]; [done| |].
    all: by rewrite (run_actions_same_host _ _ Dash_node _ env).
  - destruct (String.eqb (mode env) "trigger"); cbn [trace listeners].
    all: by rewrite (run_actions_same_host _ _ V2_node _ env).
Qed.

Lemma only_the_command_filter_is_read_witness :
  session Dash.trigger sample_actions
    (with_parameters
       (sample_env "trigger" deploy_params always_ok always_fails)
       busy_params) =
  session Dash.trigger sample_actions
    (sample_env "trigger" deploy_params always_ok always_fails).
Proof.
  assert (Hfilter :
    filter_of (with_parameters
                 (sample_env "trigger" deploy_params always_ok always_fails)
                 busy_params)
    = filter_of (sample_env "trigger" deploy_params always_ok always_fails))
    by (vm_compute; reflexivity).
  exact (proj1 (only_the_command_filter_is_read
                  (sample_env "trigger" deploy_params always_ok always_fails)
                  busy_params sample_actions Hfilter)).
Defined.

(** X13. Of the mode a node only asks whether it is ['trigger']: under
    any two other modes the same host sees the same session, in which the
    setup starts nothing. *)
Theorem modes_other_than_trigger_are_alike env m1 m2 actions :
  m1 ≠ "trigger" → m2 ≠ "trigger" →
  session Dash.trigger actions (with_mode env m1) =
    session Dash.trigger actions (with_mode env m2) ∧
  session V2.trigger actions (with_mode env m1) =
    session V2.trigger actions (with_mode env m2).
Proof.
  intros H1 H2. apply String.eqb_neq in H1, H2.
  assert (Hp : ∀ m, configured_pattern (with_mode env m)
                    = configured_pattern env) by done.
  unfold session. rewrite !Dash_trigger_run, !V2_trigger_run, !Hp.
  cbn [credentials_store app_init mode start_outcome with_mode].
  rewrite H1, H2.
  destruct (credentials_store env _) as [cred|e]; [|done].
  destruct (app_init env _) as [e|]; [done|]. cbn zeta.
  cbn [trace listeners]. split.
  - by rewrite (run_actions_same_host _ _ Dash_node _ env (with_mode env m1)),
      (run_actions_same_host _ _ Dash_node _ env (with_mode env m2)).
  - by rewrite (run_actions_same_host _ _ V2_node _ env (with_mode env m1)),
      (run_actions_same_host _ _ V2_node _ env (with_mode env m2)).
Qed.

Lemma modes_other_than_trigger_are_alike_witness :
  session V2.trigger sample_actions
    (with_mode (sample_env "trigger" deploy_params always_ok always_ok)
       "manual") =
  session V2.trigger sample_actions
    (with_mode (sample_env "trigger" deploy_params always_ok always_ok)
       "webhook").
Proof.
  assert (H1 : "manual" ≠ "trigger") by discriminate.
  assert (H2 : "webhook" ≠ "trigger") by discriminate.
  exact (proj2 (modes_other_than_trigger_are_alike
                  (sample_env "trigger" deploy_params always_ok always_ok)
                  "manual" "webhook" sample_actions H1 H2)).
Defined.

(** ** The setups and the descriptions *)

Lemma action_lookups p env t a :
  List.filter is_lookup (action_calls p env t a) = [].
Proof.
  destruct a as [| |name args]; cbn.
  - by destruct (start_outcome env _).
  - by destruct (stop_outcome env _).
  - destruct (matches_pattern p name); [|done]. by destruct (ack args).
Qed.

Lemma action_parameter_reads p env t a :
  List.filter is_parameter_read (action_calls p env t a) = [].
Proof.
  destruct a as [| |name args]; cbn.
  - by destruct (start_outcome env _).
  - by destruct (stop_outcome env _).
  - destruct (matches_pattern p name); [|done]. by destruct (ack args).
Qed.

Section SessionFilter.
Variables (f : Call → bool) (env : Env) (actions : list HostAction).
Hypothesis Hquiet : ∀ p a t, List.filter f (action_calls p env t a) = [].

(** The calls [f] picks in a session are those it picks in the setup. *)
Lemma Dash_session_filter :
  List.filter f (snd (session Dash.trigger actions env)) =
  List.filter f (trace (snd (Dash.trigger env initial))).
Proof.
  unfold session. rewrite Dash_trigger_run.
  destruct (credentials_store env _) as [cred|e]; [|done].
  destruct (app_init env _) as [e|]; [done|]. cbn zeta.
  destruct (String.eqb (mode env) "trigger");
    [destruct (start_outcome env _)|]; cbn [trace listeners snd]; [done| |].
  all: match goal with
       | |- context [run_actions ?r [command_listener ?p ?h] ?a ?e ?t] =>
           pose proof (run_actions_filter r h Dash_node p e f (Hquiet p) a t)
             as Hf;
           destruct (run_actions r [command_listener p h] a e t) as [rs t']
       end; by cbn [snd] in *.
Qed.

Lemma V2_session_filter :
  List.filter f (snd (session V2.trigger actions env)) =
  List.filter f (trace (snd (V2.trigger env initial))).
Proof.
  unfold session. rewrite V2_trigger_run.
  destruct (credentials_store env _) as [cred|e]; [|done].
  destruct (app_init env _) as [e|]; [done|]. cbn zeta.
  destruct (String.eqb (mode env) "trigger"); cbn [trace listeners snd].
  all: match goal with
       | |- context [run_actions ?r [command_listener ?p ?h] ?a ?e ?t] =>
           pose proof (run_actions_filter r h V2_node p e f (Hquiet p) a t)
             as Hf;
           destruct (run_actions r [command_listener p h] a e t) as [rs t']
       end; by cbn [snd] in *.
Qed.

End SessionFilter.

(** X14. Over a whole session each node looks up one credential, and it
    is one that its own description declares as required. *)
Theorem the_declared_credential_is_looked_up env actions :
  (∃ name, requires_credential Dash_description name ∧
           List.filter is_lookup (snd (session Dash.trigger actions env))
             = [GetCredentials name]) ∧
  (∃ name, requires_credential V2_description name ∧
           List.filter is_lookup (snd (session V2.trigger actions env))
             = [GetCredentials name]).
Proof.
  split; exists "slackSocketCredentialsApi".
  - split; [eexists; split; [by left|done]|].
    rewrite Dash_session_filter by (intros; apply action_lookups).
    rewrite Dash_trigger_run.
    destruct (credentials_store env _) as [cred|e]; [|done].
    destruct (app_init env _) as [e|]; [done|]. cbn zeta.
    destruct (String.eqb (mode env) "trigger");
      [destruct (start_outcome env _)|]; done.
  - split; [eexists; split; [by left|done]|].
    rewrite V2_session_filter by (intros; apply action_lookups).
    rewrite V2_trigger_run.
    destruct (credentials_store env _) as [cred|e]; [|done].
    destruct (app_init env _) as [e|]; [done|]. cbn zeta.
    destruct (String.eqb (mode env) "trigger");
      [destruct (start_outcome env _)|]; done.
Qed.

(** X15. Every node parameter a node reads over a whole session is a
    property its own description declares, and the fallback it passes is
    the default declared there. *)
Theorem parameters_read_are_declared env actions name fallback :
  (In (GetNodeParameter name fallback)
      (snd (session Dash.trigger actions env)) →
   declares_parameter Dash_description name fallback) ∧
  (In (GetNodeParameter name fallback)
      (snd (session V2.trigger actions env)) →
   declares_parameter V2_description name fallback).
Proof.
  assert (Hdeclared : ∀ d, d = Dash_description ∨ d = V2_description →
            ∀ t, In (GetNodeParameter name fallback)
                   (List.filter is_parameter_read t) →
                 List.filter is_parameter_read t = [] ∨
                 List.filter is_parameter_read t =
                   [GetNodeParameter "slashCommandName" ""] →
                 declares_parameter d name fallback).
  { intros d Hd t Hin [Ht|Ht]; rewrite Ht in Hin; [done|].
    destruct Hin as [Heq | Hin]; [|destruct Hin]. injection Heq as <- <-.
    destruct Hd as [-> | ->]; eexists; (split; [right; by left|done]). }
  split; intros Hin.
  - apply (Hdeclared _ (or_introl eq_refl)
             (snd (session Dash.trigger actions env))).
    { apply List.filter_In. by split. }
    rewrite Dash_session_filter by (intros; apply action_parameter_reads).
    rewrite Dash_trigger_run.
    destruct (credentials_store env _) as [cred|e]; [|by left].
    destruct (app_init env _) as [e|]; [by left|]. cbn zeta. right.
    destruct (String.eqb (mode env) "trigger");
      [destruct (start_outcome env _)|]; done.
  - apply (Hdeclared _ (or_intror eq_refl)
             (snd (session V2.trigger actions env))).
    { apply List.filter_In. by split. }
    rewrite V2_session_filter by (intros; apply action_parameter_reads).
    rewrite V2_trigger_run.
    destruct (credentials_store env _) as [cred|e]; [|by left].
    destruct (app_init env _) as [e|]; [by left|]. cbn zeta. right.
    destruct (String.eqb (mode env) "trigger");
      [destruct (start_outcome env _)|]; done.
Qed.

Lemma parameters_read_are_declared_witness :
  declares_parameter Dash_description "slashCommandName" "" ∧
  declares_parameter V2_description "slashCommandName" "".
Proof.
  destruct (parameters_read_are_declared
              (sample_env "manual" deploy_params always_ok always_ok)
              [RunClose] "slashCommandName" "") as [HD HV].
  split; [apply HD | apply HV]; vm_compute; tauto.
Defined.

(** X16. A node whose parameters are the defaults its description
    declares registers its listener under the catch-all pattern: left as
    it comes, a node listens to every slash command. *)
Theorem default_configuration_listens_to_every_command env w cred :
  credentials_store env "slackSocketCredentialsApi" = Ok cred →
  app_init env (options_of cred) = None →
  (node_parameters env = default_parameters Dash_description →
   listeners (snd (Dash.trigger env w)) =
     [command_listener (PRegExp catch_all) Dash.handler]) ∧
  (node_parameters env = default_parameters V2_description →
   listeners (snd (V2.trigger env w)) =
     [command_listener (PRegExp catch_all) V2.handler]) ∧
  ∀ name, matches_pattern (PRegExp catch_all) name = true.
Proof.
  intros Hcred Happ. split; [|split]; [| |apply catch_all_matches].
  - intros Hparams.
    assert (Hp : configured_pattern env = PRegExp catch_all).
    { unfold configured_pattern, filter_of. by rewrite Hparams. }
    rewrite Dash_trigger_run, Hcred, Happ, Hp. cbn zeta.
    destruct (String.eqb (mode env) "trigger");
      [destruct (start_outcome env _)|]; done.
  - intros Hparams.
    assert (Hp : configured_pattern env = PRegExp catch_all).
    { unfold configured_pattern, filter_of. by rewrite Hparams. }
    rewrite V2_trigger_run, Hcred, Happ, Hp. cbn zeta.
    destruct (String.eqb (mode env) "trigger"); done.
Qed.

Lemma default_configuration_listens_to_every_command_witness :
  map pattern
    (listeners
       (snd (Dash.trigger
               (sample_env "trigger" (default_parameters Dash_description)
                  always_ok always_ok) initial)))
  = [PRegExp catch_all] ∧
  map pattern
    (listeners
       (snd (V2.trigger
               (sample_env "trigger" (default_parameters V2_description)
                  always_ok always_ok) initial)))
  = [PRegExp catch_all].
Proof.
  destruct (default_configuration_listens_to_every_command
              (sample_env "trigger" (default_parameters Dash_description)
                 always_ok always_ok)
              initial sample_credential eq_refl eq_refl) as (HD & _ & _).
  destruct (default_configuration_listens_to_every_command
              (sample_env "trigger" (default_parameters V2_description)
                 always_ok always_ok)
              initial sample_credential eq_refl eq_refl) as (_ & HV & _).
  by rewrite (HD eq_refl), (HV eq_refl).
Defined.

Lemma action_constructions p env t a :
  List.filter is_construction (action_calls p env t a) = [].
Proof.
  destruct a as [| |name args]; cbn.
  - by destruct (start_outcome env _).
  - by destruct (stop_outcome env _).
  - destruct (matches_pattern p name); [|done]. by destruct (ack args).
Qed.

(** X17. Given credentials, a node builds one client over a whole
    session, in socket mode, with the bot token as its [token] and the
    signing secret and the application token under their own names. *)
Theorem one_client_in_socket_mode env cred actions :
  credentials_store env "slackSocketCredentialsApi" = Ok cred →
  ∃ o,
    List.filter is_construction (snd (session Dash.trigger actions env))
      = [NewApp o] ∧
    List.filter is_construction (snd (session V2.trigger actions env))
      = [NewApp o] ∧
    AppOptions.socketMode o = true ∧
    AppOptions.token o = botToken cred ∧
    AppOptions.signingSecret o = signingSecret cred ∧
    AppOptions.appToken o = appToken cred.
Proof.
  intros Hcred. exists (options_of cred).
  rewrite Dash_session_filter by (intros; apply action_constructions).
  rewrite V2_session_filter by (intros; apply action_constructions).
  rewrite Dash_trigger_run, V2_trigger_run, Hcred.
  destruct (app_init env _) as [e|]; [done|]. cbn zeta.
  destruct (String.eqb (mode env) "trigger");
    [destruct (start_outcome env _)|]; done.
Qed.

Lemma one_client_in_socket_mode_witness :
  List.filter is_construction
    (snd (session Dash.trigger sample_actions
            (sample_env "trigger" deploy_params always_ok always_ok)))
  = [NewApp {| AppOptions.token := "xoxb-1";
               AppOptions.signingSecret := "s3cret";
               AppOptions.appToken := "xapp-1";
               AppOptions.socketMode := true |}].
Proof.
  destruct (one_client_in_socket_mode
              (sample_env "trigger" deploy_params always_ok always_ok)
              sample_credential sample_actions eq_refl)
    as (o & HD & _ & Hs & Ht & Hg & Ha).
  rewrite HD. destruct o as [tk sg ap sm]. cbn in *. by subst.
Defined.

(** ** The log *)

Lemma faithful_log_action p env t a :
  faithful_log env t → faithful_log env (t ++ action_calls p env t a).
Proof.
  unfold faithful_log. intros [He Hi]. rewrite !count_app, He, Hi.
  destruct a as [| |name args]; cbn.
  - destruct (start_outcome env (count is_start t)) eqn:Ho; cbn.
    all: rewrite ?Nat.add_0_r, !Nat.add_1_r; cbn [rejections resolutions].
    all: rewrite Ho; lia.
  - destruct (stop_outcome env (count is_stop t)) eqn:Ho; cbn.
    all: rewrite ?Nat.add_0_r, !Nat.add_1_r; cbn [rejections resolutions].
    all: rewrite Ho; lia.
  - destruct (matches_pattern p name); [destruct (ack args)|]; cbn.
    all: rewrite ?Nat.add_0_r; lia.
Qed.

Section Log.
Variables (resp : ITriggerResponse.t) (h : HandlerArgs → T unit).
Hypothesis Hnode :
  (resp = Dash_response ∧ h = Dash.handler) ∨
  (resp = V2_response ∧ h = V2.handler).

Lemma faithful_log_actions p env actions t :
  faithful_log env t →
  faithful_log env
    (snd (run_actions resp [command_listener p h] actions env t)).
Proof.
  revert t. induction actions as [|a actions IH]; intros t Ht; [done|].
  cbn [run_actions].
  pose proof (run_action_calls resp h Hnode p env a t) as Ha.
  destruct (run_action _ _ a env t) as [r t1]. cbn in Ha. subst t1.
  specialize (IH _ (faithful_log_action p env t a Ht)).
  by destruct (run_actions _ _ actions env _) as [rs t2].
Qed.

End Log.

(** X18. Over a whole session of either node, whether or not its setup
    returned, every call of [app.start] or [app.stop] that rejected has
    left one error message and every one that resolved has left one info
    message, and nothing else is logged. *)
Theorem no_start_or_stop_goes_unlogged env actions :
  faithful_log env (snd (session Dash.trigger actions env)) ∧
  faithful_log env (snd (session V2.trigger actions env)).
Proof.
  unfold session. rewrite Dash_trigger_run, V2_trigger_run.
  change (count is_start (trace initial)) with 0.
  destruct (credentials_store env _) as [cred|e]; [|by split].
  destruct (app_init env _) as [e|]; [by split|]. cbn zeta.
  destruct (String.eqb (mode env) "trigger");
    [destruct (start_outcome env 0) eqn:Hstart|];
    cbn [trace listeners snd initial].
  all: split.
  all: try match goal with
       | |- context [run_actions ?r [command_listener ?p ?h] ?a ?e ?t] =>
           let H := fresh in
           assert (H : faithful_log e t)
             by (unfold faithful_log, setup_calls; cbn; by rewrite ?Hstart);
           first [ pose proof (faithful_log_actions r h Dash_node p e a t H)
                 | pose proof (faithful_log_actions r h V2_node p e a t H) ];
           by destruct (run_actions r [command_listener p h] a e t)
       end.
  unfold faithful_log, setup_calls; cbn; by rewrite ?Hstart.
Qed.
